(** * helper_scripts/udp_forward.py: the UDP broadcast relay

    A shallow embedding of the relay script and the properties of its
    receive / rewrite / send loop.

    Layout of the development:
    - [Py]      the Python built-ins the script calls ([int], [str],
                [repr] of bytes, [print]) and its exception classes;
    - [Inet]    IPv4 addresses and their dotted-quad text, sixteen-bit
                fields, the Internet checksum;
    - [Scapy]   the layers [IP(..)/UDP(..)/Raw(..)], the bytes [raw]
                builds from them and what [IP(bytes)] reads back;
    - [Proc]    the process: the outside world as oracles, the trace of
                what the process does, the monad that threads both, and
                the calls the script makes;
    - [Relay]   the script itself, statement by statement;
    - [Trace]   how a trace is read, what of it has reached standard
                output, the conditions on the world the properties need,
                and the shape of the events of the loop;
    - [Example] worlds to run the script in;
    - the lemmas, the properties of the relay, C1 to C10, and further
      properties of the script, X1 to X10. *)

From Stdlib Require Import ZArith List String Ascii Lia Bool.
From Stdlib Require Import DecimalString DecimalZ DecimalPos.
From Stdlib.Strings Require Import Byte.
Import ListNotations.

Local Open Scope string_scope.
Local Open Scope list_scope.
Local Open Scope Z_scope.

(* ===================================================================== *)
(** ** Python built-ins *)
(* ===================================================================== *)

Module Py.

(** The exception classes that can reach the top level of the script.
    [socket.error] is an alias of [OSError]; [socket.gaierror] is one of
    its subclasses.  [sys.exit(n)] raises [SystemExit(n)]. *)
Inductive exn : Type :=
| IndexError
| ValueError
| UnicodeError
| OverflowError
| OSError
| gaierror
| struct_error
| Scapy_Exception
| SystemExit (code : Z).

(** [isinstance(e, socket.error)], the test of the script's only
    [except] clause. *)
Definition is_socket_error (e : exn) : bool :=
  match e with
  | OSError | gaierror => true
  | _ => false
  end.

(** The value of an expression, or the exception it raises. *)
Inductive result (A : Type) : Type :=
| Ok (a : A)
| Raise (e : exn).
Arguments Ok {A} a.
Arguments Raise {A} e.

(** Characters with a fixed code, written by code so that no literal
    needs escaping. *)
Definition LF : ascii := "010"%char.
Definition DQUOTE : ascii := "034"%char.
Definition SQUOTE : ascii := "039"%char.
Definition BACKSLASH : ascii := "092"%char.

Definition code (c : ascii) : Z := Z.of_nat (nat_of_ascii c).

(** *** [int(s)] on a [str], base 10

    A [str] all of whose characters are ASCII is modelled by the string
    of these characters, and [int] is modelled on such strings: white
    space (the space and the codes 9 to 13) around an optional sign and
    decimal digits, single underscores between digits, and at most 4300
    digits, the limit the interpreter starts with
    ([sys.int_info.default_max_str_digits]).  A [str]
    with a character outside ASCII, where [int] also reads the digits
    and the spaces of other scripts, is not modelled: [is_ascii] marks
    the strings that are. *)

Definition ascii_char (c : ascii) : bool := code c <? 128.

Definition is_ascii (s : string) : bool :=
  forallb ascii_char (list_ascii_of_string s).

Definition is_space (c : ascii) : bool :=
  (code c =? 32) || ((9 <=? code c) && (code c <=? 13)).

Definition digit_value (c : ascii) : option Z :=
  if (48 <=? code c) && (code c <=? 57) then Some (code c - 48) else None.

Fixpoint lstrip (s : list ascii) : list ascii :=
  match s with
  | c :: s' => if is_space c then lstrip s' else s
  | [] => []
  end.

Definition strip (s : list ascii) : list ascii :=
  rev (lstrip (rev (lstrip s))).

(** Where the digit scanner stands: underscores are accepted only
    between two digits. *)
Inductive scan : Type := AtStart | AfterDigit | AfterUnderscore.

Fixpoint int_digits (st : scan) (acc : Z) (s : list ascii) : option Z :=
  match s with
  | [] => match st with AfterDigit => Some acc | _ => None end
  | c :: s' =>
      match digit_value c with
      | Some d => int_digits AfterDigit (10 * acc + d) s'
      | None =>
          if (c =? "_")%char
          then match st with
               | AfterDigit => int_digits AfterUnderscore acc s'
               | _ => None
               end
          else None
      end
  end.

(** The limit on the digits of a literal: leading zeros count, the sign
    and the underscores do not. *)
Fixpoint count_digits (s : list ascii) : Z :=
  match s with
  | [] => 0
  | c :: s' =>
      match digit_value c with
      | Some _ => 1 + count_digits s'
      | None => count_digits s'
      end
  end.

Definition max_str_digits : Z := 4300.

Definition int_literal (r : list ascii) : option Z :=
  if count_digits r <=? max_str_digits then int_digits AtStart 0 r else None.

(** [None] stands for the [ValueError] that [int] raises. *)
Definition int (s : string) : option Z :=
  match strip (list_ascii_of_string s) with
  | "-"%char :: r => option_map Z.opp (int_literal r)
  | "+"%char :: r => int_literal r
  | r => int_literal r
  end.

(** *** [str(n)] on an [int] *)

Definition str (n : Z) : string := NilZero.string_of_int (Z.to_int n).

(** *** [repr(b)] on a [bytes] object *)

Definition hex_digit (n : N) : ascii :=
  nth (N.to_nat n) (list_ascii_of_string "0123456789abcdef") "0"%char.

Definition is_byte (c : ascii) (b : byte) : bool :=
  (ascii_of_byte b =? c)%char.

Definition repr_byte (quote : ascii) (b : byte) : string :=
  let c := ascii_of_byte b in
  let n := Byte.to_N b in
  if (c =? quote)%char || (c =? BACKSLASH)%char then String BACKSLASH (String c "")
  else if (n =? 9)%N then "\t"
  else if (n =? 10)%N then "\n"
  else if (n =? 13)%N then "\r"
  else if (n <? 32)%N || (127 <=? n)%N
       then String BACKSLASH (String "x" (String (hex_digit (n / 16))
                                     (String (hex_digit (n mod 16)) "")))
  else String c "".

(** The delimiter is the single quote, unless the data holds a single
    quote and no double quote. *)
Definition repr_quote (data : list byte) : ascii :=
  if existsb (is_byte SQUOTE) data && negb (existsb (is_byte DQUOTE) data)
  then DQUOTE else SQUOTE.

Definition repr (data : list byte) : string :=
  let q := repr_quote data in
  String "b" (String q (String.concat "" (map (repr_byte q) data) ++ String q ""))%string.




(** *** [print(a, b, ...)]: the text one call hands to standard output,
    its arguments already converted with [str], separated by one space
    and ended by a line feed. *)
Definition line (s : string) : string := (s ++ String LF "")%string.

Definition print_text (args : list string) : string :=
  line (String.concat " " args).

End Py.

(* ===================================================================== *)
(** ** IPv4 addresses, sixteen-bit fields, the Internet checksum *)
(* ===================================================================== *)

Module Inet.

(** An IPv4 address: four octets, most significant first. *)
Record ipv4 : Type := Addr { o1 : byte; o2 : byte; o3 : byte; o4 : byte }.

Definition octets (a : ipv4) : list byte := [o1 a; o2 a; o3 a; o4 a].

Definition byte_val (b : byte) : Z := Z.of_N (Byte.to_N b).

(** The low eight bits of an integer, as a byte. *)
Definition byte_of_Z (z : Z) : byte :=
  match Byte.of_N (Z.to_N (z mod 256)) with
  | Some b => b
  | None => x00
  end.

(** *** Dotted-quad text *)

Definition dec (b : byte) : string := NilZero.string_of_uint (N.to_uint (Byte.to_N b)).

(** [socket.inet_ntoa]: the text the operating system hands out for an
    address, which is what [recvfrom] returns as [src_ip]. *)
Definition inet_ntoa (a : ipv4) : string :=
  (dec (o1 a) ++ "." ++ dec (o2 a) ++ "." ++ dec (o3 a) ++ "." ++ dec (o4 a))%string.

(** One decimal octet in canonical form: one to three digits, no leading
    zero, at most 255.  Returns the octet and the unread text. *)
Fixpoint read_digits (n : nat) (s : list ascii) : list Z * list ascii :=
  match n, s with
  | S n', c :: s' =>
      match Py.digit_value c with
      | Some d => let (ds, r) := read_digits n' s' in (d :: ds, r)
      | None => ([], s)
      end
  | _, _ => ([], s)
  end.

Definition read_octet (s : list ascii) : option (byte * list ascii) :=
  let (ds, r) := read_digits 3 s in
  match ds with
  | [] => None
  | 0 :: _ :: _ => None
  | _ =>
      let v := fold_left (fun acc d => 10 * acc + d) ds 0 in
      if v <=? 255 then Some (byte_of_Z v, r) else None
  end.

(** An octet and the dot after it. *)
Definition read_octet_dot (s : list ascii) : option (byte * list ascii) :=
  match read_octet s with
  | Some (b, "."%char :: r) => Some (b, r)
  | _ => None
  end.

Local Notation "' p <- x ;; k" :=
  (match x with Some p => k | None => None end)
  (at level 61, p pattern, x at next level, right associativity).

(** [socket.inet_pton(AF_INET, s)]: the canonical dotted quads, and
    only those. *)
Definition parse_dotted_quad (s : string) : option ipv4 :=
  '(a, r) <- read_octet_dot (list_ascii_of_string s) ;;
  '(b, r) <- read_octet_dot r ;;
  '(c, r) <- read_octet_dot r ;;
  '(d, r) <- read_octet r ;;
  match r with
  | [] => Some (Addr a b c d)
  | _ => None
  end.

(** The address a text stands for when an address field is built from
    it: the dotted quad read as it stands, a name through the resolver.
    Which texts a field is built from is [field_address], below: a text
    that is no dotted quad and that [inet_aton] reads builds none, and
    the resolver is not asked about it. *)
Definition address_of (resolver : string -> option ipv4) (s : string) : option ipv4 :=
  match parse_dotted_quad s with
  | Some a => Some a
  | None => resolver s
  end.

(** How the lookup of a name ends when no address comes out of it: the
    resolver knows none ([socket.gaierror]), the name has a label the
    IDNA codec refuses ([UnicodeError]), the text is a wildcard or a
    range that scapy refuses ([Scapy_Exception]), or what follows a
    slash in it is not a number ([ValueError]). *)
Inductive lookup_error : Type :=
| NoAddress
| BadLabel
| NotAHost
| BadMask.

Definition lookup_exn (e : lookup_error) : Py.exn :=
  match e with
  | NoAddress => Py.gaierror
  | BadLabel => Py.UnicodeError
  | NotAHost => Py.Scapy_Exception
  | BadMask => Py.ValueError
  end.

(** [len(bs)] *)
Definition blen (bs : list byte) : Z := Z.of_nat (List.length bs).

(** The first [n] bytes of a byte string, [bs[:n]] for [n >= 0]. *)
Definition take (n : Z) (bs : list byte) : list byte := firstn (Z.to_nat n) bs.

(** *** Sixteen-bit big-endian fields *)

Definition be16 (z : Z) : list byte := [byte_of_Z (z / 256); byte_of_Z z].

Definition word (hi lo : byte) : Z := 256 * byte_val hi + byte_val lo.

Definition fits16 (z : Z) : bool := (0 <=? z) && (z <? 65536).

(** *** The Internet checksum (RFC 1071), as [scapy.utils.checksum] *)

Fixpoint sum16 (bs : list byte) : Z :=
  match bs with
  | hi :: lo :: r => word hi lo + sum16 r
  | [hi] => word hi x00
  | [] => 0
  end.

Definition checksum (bs : list byte) : Z :=
  let s := sum16 bs in
  let s := Z.shiftr s 16 + Z.land s 65535 in
  let s := s + Z.shiftr s 16 in
  Z.land (Z.lnot s) 65535.

(** The sum folded to sixteen bits, as [checksum] folds it before it
    complements it. *)
Definition fold16 (s : Z) : Z :=
  let s := Z.shiftr s 16 + Z.land s 65535 in s + Z.shiftr s 16.

End Inet.

(* ===================================================================== *)
(** ** The scapy layers the script uses *)
(* ===================================================================== *)

Module Scapy.
Import Inet.

(** [IP(dst=.., src=..)/UDP(dport=.., sport=..)/Raw(load=..)]: the
    fields the script sets.  Every other field keeps its default
    (version 4, no options, tos 0, id 1, no flags, no fragment offset,
    ttl 64) or is computed when the packet is built (ihl, the two
    lengths, the protocol number and the two checksums). *)
Record Packet : Type := IP_UDP_Raw {
  dst : string;
  src : string;
  dport : Z;
  sport : Z;
  load : list byte
}.

(** The UDP header and its payload (RFC 768); the checksum runs over the
    pseudo-header, the header with a zero checksum and the payload, and
    a computed zero is sent as 0xFFFF. *)
Definition udp_header (sp dp ulen ck : Z) : list byte :=
  be16 sp ++ be16 dp ++ be16 ulen ++ be16 ck.

Definition udp_checksum (s d : ipv4) (sp dp : Z) (data : list byte) : Z :=
  let ulen := 8 + blen data in
  let pseudo := octets s ++ octets d ++ be16 17 ++ be16 ulen in
  let ck := checksum (pseudo ++ udp_header sp dp ulen 0 ++ data) in
  if ck =? 0 then 65535 else ck.

Definition build_udp (s d : ipv4) (sp dp : Z) (data : list byte) : list byte :=
  udp_header sp dp (8 + blen data) (udp_checksum s d sp dp data) ++ data.

(** The pseudo-header a receiver checks a UDP segment with: the two
    addresses, the protocol number and the length of the segment. *)
Definition pseudo_header (s d : ipv4) (segment : list byte) : list byte :=
  octets s ++ octets d ++ be16 17 ++ be16 (blen segment).

(** The twenty-byte IP header (RFC 791) in front of its payload. *)
Definition ip_header (len ck : Z) (s d : ipv4) : list byte :=
  [x45; x00] ++ be16 len ++ be16 1 ++ be16 0 ++ [x40; x11] ++ be16 ck
    ++ octets s ++ octets d.

Definition ip_checksum (len : Z) (s d : ipv4) : Z :=
  checksum (ip_header len 0 s d).

Definition build_ip (s d : ipv4) (payload : list byte) : list byte :=
  let len := 20 + blen payload in
  ip_header len (ip_checksum len s d) s d ++ payload.

Section Build.

(** What the building of a packet asks of the system: whether the C
    library's [inet_aton] reads a text (besides the dotted quads it reads
    octal and hexadecimal parts, short forms and, with some libraries,
    text after a blank), the address found for a name, and how the
    lookup of a name ends when none is found. *)
Variable inet_aton : string -> bool.
Variable resolver : string -> option ipv4.
Variable refusal : string -> lookup_error.

(** An address field, from the text it was given to the four bytes of
    the header.  A dotted quad is taken as it stands.  Any other text
    that [inet_aton] reads is kept as text by the field and goes into the
    IP header, but [inet_pton], which the pseudo-header of the UDP
    checksum is made with, refuses it: [OSError], and the resolver is not
    asked.  What [inet_aton] does not read is looked up as a name. *)
Definition field_address (s : string) : Py.result ipv4 :=
  match parse_dotted_quad s with
  | Some a => Py.Ok a
  | None =>
      if inet_aton s then Py.Raise Py.OSError
      else match resolver s with
           | Some a => Py.Ok a
           | None => Py.Raise (lookup_exn (refusal s))
           end
  end.

(** [raw(packet)]: the bytes of the packet.  Building fails with the
    exception of an address field that has no address, and with
    [struct.error] when a port or a length does not fit its sixteen
    bits. *)
Definition raw (p : Packet) : Py.result (list byte) :=
  match field_address (dst p) with
  | Py.Raise e => Py.Raise e
  | Py.Ok d =>
    match field_address (src p) with
    | Py.Raise e => Py.Raise e
    | Py.Ok s =>
      if fits16 (sport p) && fits16 (dport p) && fits16 (28 + blen (load p))
      then Py.Ok (build_ip s d (build_udp s d (sport p) (dport p) (load p)))
      else Py.Raise Py.struct_error
    end
  end.

End Build.

(** What [IP(bytes)] finds in a byte string. *)
Record UDP : Type := {
  udp_sport : Z;
  udp_dport : Z;
  udp_len : Z;
  udp_chksum : Z;
  udp_load : list byte
}.

Inductive upper : Type :=
| AsUDP (u : UDP)
| AsRaw (bs : list byte).

Record IP : Type := {
  ip_version : Z;
  ip_ihl : Z;
  ip_tos : Z;
  ip_len : Z;
  ip_id : Z;
  ip_flags : Z;
  ip_frag : Z;
  ip_ttl : Z;
  ip_proto : Z;
  ip_chksum : Z;
  ip_src : ipv4;
  ip_dst : ipv4;
  ip_options : list byte;
  ip_payload : upper
}.

(** The UDP layer: eight bytes of header, then [len - 8] bytes of
    payload. *)
Definition dissect_udp (s : list byte) : option UDP :=
  match s with
  | s1 :: s2 :: d1 :: d2 :: l1 :: l2 :: c1 :: c2 :: r =>
      let l := word l1 l2 in
      if 8 <=? l
      then Some {| udp_sport := word s1 s2; udp_dport := word d1 d2;
                   udp_len := l; udp_chksum := word c1 c2;
                   udp_load := take (l - 8) r |}
      else None
  | _ => None
  end.

(** The IP layer: the header of [4 * ihl] bytes, then [len - 4 * ihl]
    bytes of payload, read as UDP when the protocol is 17 and the packet
    is not a fragment, and kept as raw bytes otherwise.  Byte strings
    shorter than a header, or whose [ihl] or [len] is smaller than the
    header read, are not dissected. *)
Definition IP_dissect (s : list byte) : option IP :=
  match s with
  | vi :: tos :: l1 :: l2 :: i1 :: i2 :: f1 :: f2 :: ttl :: proto :: c1 :: c2
      :: s1 :: s2 :: s3 :: s4 :: d1 :: d2 :: d3 :: d4 :: r =>
      let ihl := byte_val vi mod 16 in
      let len := word l1 l2 in
      let ff := word f1 f2 in
      if (5 <=? ihl) && (4 * ihl <=? len)
      then
        let nopt := Z.to_nat (4 * ihl - 20) in
        let body := take (len - 4 * ihl) (skipn nopt r) in
        Some {| ip_version := byte_val vi / 16; ip_ihl := ihl;
                ip_tos := byte_val tos; ip_len := len;
                ip_id := word i1 i2;
                ip_flags := ff / 8192; ip_frag := ff mod 8192;
                ip_ttl := byte_val ttl; ip_proto := byte_val proto;
                ip_chksum := word c1 c2;
                ip_src := Addr s1 s2 s3 s4; ip_dst := Addr d1 d2 d3 d4;
                ip_options := firstn nopt r;
                ip_payload :=
                  if (byte_val proto =? 17) && (ff mod 8192 =? 0)
                  then match dissect_udp body with
                       | Some u => AsUDP u
                       | None => AsRaw body
                       end
                  else AsRaw body |}
      else None
  | _ => None
  end.

(** [IP(bytes)], the constructor: [struct.error] on what is not
    dissected. *)
Definition IP_of_bytes (s : list byte) : Py.result IP :=
  match IP_dissect s with
  | Some p => Py.Ok p
  | None => Py.Raise Py.struct_error
  end.

(** The bytes of the payload the packet carries above UDP. *)
Definition payload_of (p : IP) : option (list byte) :=
  match ip_payload p with
  | AsUDP u => Some (udp_load u)
  | AsRaw _ => None
  end.

Definition sport_of (p : IP) : option Z :=
  match ip_payload p with
  | AsUDP u => Some (udp_sport u)
  | AsRaw _ => None
  end.

Definition dport_of (p : IP) : option Z :=
  match ip_payload p with
  | AsUDP u => Some (udp_dport u)
  | AsRaw _ => None
  end.

End Scapy.

(* ===================================================================== *)
(** ** The process and the world around it *)
(* ===================================================================== *)

Module Proc.
Import Inet Scapy.

(** What one call of [recvfrom] meets: a datagram as it arrived (its
    whole payload, the sender's address and port), or a failure of the
    call. *)
Inductive arrival : Type :=
| Datagram (payload : list byte) (from : ipv4) (port : Z)
| RecvFails.

(** What one call of scapy's [send] meets.  The packet leaves the
    machine; or handing it to the network fails with a socket error that
    scapy's socket catches and logs, after which [send] goes on as if
    the packet had left (the raw socket scapy uses for IP does so); or
    [send] raises [OSError]: the raw socket cannot be opened for want of
    privilege, or the socket error is one scapy's socket raises again
    (the packet socket does so). *)
Inductive delivery : Type :=
| Transmitted
| Swallowed
| Refused.

(** Everything the script does not decide: its command line and the
    answers of the operating system, call by call.  Standard output is
    taken to accept what is written to it. *)
Record World : Type := {
  argv : list string;                (* sys.argv, the script name first *)
  socket_ok : bool;                  (* can the UDP socket be created? *)
  bind_ok : Z -> bool;               (* does bind(("", port)) succeed? *)
  incoming : nat -> arrival;         (* what the k-th recvfrom meets *)
  inet_aton : string -> bool;        (* does inet_aton read the text? *)
  resolver : string -> option ipv4;  (* the address found for a name *)
  refusal : string -> lookup_error;  (* how a lookup that finds none ends *)
  sending : nat -> delivery;         (* what the k-th send meets *)
  flushed : nat -> bool              (* is the buffer of sys.stdout written
                                        out when the k-th print returns? *)
}.

(** What the process does that can be observed, in the order it does
    it: a call of [print], with the text handed to [sys.stdout]; a call
    of [os.write] on file descriptor 1, which goes past the buffer of
    [sys.stdout]; a call of [recvfrom] that returned or failed; a packet
    that [send] handed to its socket; the socket error scapy logged on
    standard error in place of raising it, which tells that the packet
    before it did not leave; a call of [send] that raised. *)
Inductive event : Type :=
| Stdout (text : string)
| OsWrite (text : string)
| Recvfrom (data : list byte) (src_ip : string) (src_port : Z)
| RecvfromFailed
| Send (p : IP)
| SendErrorLogged
| SendFailed (p : IP).

Record state : Type := {
  trace : list event;   (* oldest event first *)
  recvs : nat;          (* calls of recvfrom so far *)
  sends : nat           (* calls of send so far *)
}.

Definition initial : state := {| trace := []; recvs := 0; sends := 0 |}.

Definition emit (e : event) (st : state) : state :=
  {| trace := trace st ++ [e]; recvs := recvs st; sends := sends st |}.

(** How a computation stands when it is looked at: finished with a
    value, stopped by an exception, or still inside [while 1] when the
    iterations granted to it are used up. *)
Inductive outcome (A : Type) : Type :=
| Done (a : A)
| Failed (e : Py.exn)
| Running.
Arguments Done {A} a.
Arguments Failed {A} e.
Arguments Running {A}.

Definition M (A : Type) : Type := World -> state -> outcome A * state.

Definition ret {A} (a : A) : M A := fun _ st => (Done a, st).

Definition raise {A} (e : Py.exn) : M A := fun _ st => (Failed e, st).

Definition bind {A B} (m : M A) (k : A -> M B) : M B :=
  fun w st =>
    match m w st with
    | (Done a, st') => k a w st'
    | (Failed e, st') => (Failed e, st')
    | (Running, st') => (Running, st')
    end.

Notation "x <- m ;; k" := (bind m (fun x => k))
  (at level 61, m at next level, right associativity).
Notation "m ;; k" := (bind m (fun _ => k))
  (at level 61, right associativity).

Definition lift {A} (r : Py.result A) : M A :=
  match r with
  | Py.Ok a => ret a
  | Py.Raise e => raise e
  end.

(** [try: body except <class>: handler] *)
Definition try_except {A} (body : M A) (caught : Py.exn -> bool) (handler : M A) : M A :=
  fun w st =>
    match body w st with
    | (Failed e, st') => if caught e then handler w st' else (Failed e, st')
    | r => r
    end.

(** [while 1: body], looked at after at most [n] iterations. *)
Fixpoint while_1 (n : nat) (body : M unit) : M unit :=
  match n with
  | O => fun _ st => (Running, st)
  | S n' => body ;; while_1 n' body
  end.

(** *** The calls the script makes *)

(** [sys.argv[i]] *)
Definition sys_argv (i : nat) : M string :=
  fun w => match nth_error (argv w) i with
           | Some s => ret s w
           | None => raise Py.IndexError w
           end.

(** [int(s)] *)
Definition int (s : string) : M Z :=
  match Py.int s with
  | Some n => ret n
  | None => raise Py.ValueError
  end.

(** [print(..)] *)
Definition print (args : list string) : M unit :=
  fun _ st => (Done tt, emit (Stdout (Py.print_text args)) st).

(** [sys.exit(code)] *)
Definition sys_exit {A} (code : Z) : M A := raise (Py.SystemExit code).

(** [socket.socket(socket.AF_INET, socket.SOCK_DGRAM)] *)
Definition socket_socket : M unit :=
  fun w => if socket_ok w then ret tt w else raise Py.OSError w.

(** [sock.bind(("", port))]: a port outside 0..65535 is refused before
    the operating system is asked. *)
Definition sock_bind (port : Z) : M unit :=
  fun w =>
    if fits16 port
    then if bind_ok w port then ret tt w else raise Py.OSError w
    else raise Py.OverflowError w.

(** [sock.recvfrom(bufsize)]: the datagram at the head of the queue, cut
    to [bufsize] bytes, and where it came from. *)
Definition sock_recvfrom (bufsize : Z) : M (list byte * (string * Z)) :=
  fun w st =>
    let st' := {| trace := trace st; recvs := S (recvs st); sends := sends st |} in
    match incoming w (recvs st) with
    | Datagram payload a p =>
        let data := take bufsize payload in
        (Done (data, (inet_ntoa a, p)), emit (Recvfrom data (inet_ntoa a) p) st')
    | RecvFails => (Failed Py.OSError, emit RecvfromFailed st')
    end.

(** What scapy's [send] writes to standard output at its default
    verbosity: a dot with [os.write(1, ..)] once its socket has taken
    the packet, then its count of packets with [print]. *)
Definition sent_dot : string := ".".

Definition sent_count : string :=
  Py.print_text [String Py.LF "Sent 1 packets."].

(** [send(packet)]: scapy opens its socket, hands it the packet, writes
    its dot and prints its count.  A socket error that the socket
    swallows changes nothing to that but the line logged on standard
    error. *)
Definition send (p : IP) : M unit :=
  fun w st =>
    let st' := {| trace := trace st; recvs := recvs st; sends := S (sends st) |} in
    match sending w (sends st) with
    | Transmitted =>
        (Done tt,
         emit (Stdout sent_count) (emit (OsWrite sent_dot) (emit (Send p) st')))
    | Swallowed =>
        (Done tt,
         emit (Stdout sent_count)
           (emit (OsWrite sent_dot) (emit SendErrorLogged (emit (Send p) st'))))
    | Refused => (Failed Py.OSError, emit (SendFailed p) st')
    end.

(** [raw(packet)] and [IP(bytes)] *)
Definition raw (p : Packet) : M (list byte) :=
  fun w => lift (Scapy.raw (inet_aton w) (resolver w) (refusal w) p) w.

Definition IP (s : list byte) : M Scapy.IP := lift (IP_of_bytes s).

(** The exit status of the process, once it has one. *)
Definition exit_status {A} (o : outcome A) : option Z :=
  match o with
  | Done _ => Some 0
  | Failed (Py.SystemExit c) => Some c
  | Failed _ => Some 1
  | Running => None
  end.

(** Stopped by an exception nothing caught, which the interpreter
    reports with its traceback. *)
Definition uncaught {A} (o : outcome A) : option Py.exn :=
  match o with
  | Failed (Py.SystemExit _) => None
  | Failed e => Some e
  | _ => None
  end.

End Proc.

(* ===================================================================== *)
(** ** The script *)
(* ===================================================================== *)

Module Relay.
Import Inet Scapy Proc.

(** Lines 21 and 22: the packet assembled from the layers, built into
    bytes and read back from them. *)
Definition construct (destination_ip : string) (data : list byte)
    (src_ip : string) (src_port : Z) : M Scapy.IP :=
  a2 <- sys_argv 2 ;;
  port <- int a2 ;;
  packet <- raw (IP_UDP_Raw destination_ip src_ip port src_port data) ;;
  IP packet.

(** Lines 21 to 24, the forward step. *)
Definition forward (destination_ip : string) (data : list byte)
    (src_ip : string) (src_port : Z) : M unit :=
  packet <- construct destination_ip data src_ip src_port ;;
  send packet.

(** The body of the loop, lines 18 to 24. *)
Definition iteration (destination_ip : string) : M unit :=
  r <- sock_recvfrom 4096 ;;
  let '(data, (src_ip, src_port)) := r in
  print [Py.repr data; src_ip; Py.str src_port] ;;
  forward destination_ip data src_ip src_port.

(** The script, its loop looked at after at most [n] iterations.  The
    [with] statement closes the socket on the way out and lets every
    exception through. *)
Definition main (n : nat) : M unit :=
  destination_ip <- sys_argv 1 ;;
  socket_socket ;;
  try_except
    (a2 <- sys_argv 2 ;;
     port <- int a2 ;;
     sock_bind port)
    Py.is_socket_error
    (print ["Bind failed."] ;;
     sys_exit 1) ;;
  print ["Socket activated"] ;;
  while_1 n (iteration destination_ip).

(** The run of the process in a world. *)
Definition run (n : nat) (w : World) : outcome unit * state := main n w initial.

End Relay.

(* ===================================================================== *)
(** ** Reading a trace *)
(* ===================================================================== *)

Module Trace.
Import Inet Scapy Proc Relay.

(** The datagrams [recvfrom] returned, oldest first: the data, the
    sender's address as text and the sender's port. *)
Fixpoint received (tr : list event) : list (list byte * string * Z) :=
  match tr with
  | [] => []
  | Recvfrom data src_ip src_port :: r => (data, src_ip, src_port) :: received r
  | _ :: r => received r
  end.

(** The packets [send] handed to its socket, oldest first. *)
Fixpoint forwarded (tr : list event) : list Scapy.IP :=
  match tr with
  | [] => []
  | Send p :: r => p :: forwarded r
  | _ :: r => forwarded r
  end.

(** Those of them that left the machine: the ones no logged socket
    error follows. *)
Fixpoint transmitted (tr : list event) : list Scapy.IP :=
  match tr with
  | [] => []
  | Send p :: r =>
      match r with
      | SendErrorLogged :: _ => transmitted r
      | _ => p :: transmitted r
      end
  | _ :: r => transmitted r
  end.

(** The texts handed over for standard output, by [print] or by
    [os.write], oldest first. *)
Fixpoint printed (tr : list event) : list string :=
  match tr with
  | [] => []
  | Stdout s :: r | OsWrite s :: r => s :: printed r
  | _ :: r => printed r
  end.

(** Every call of [send], whether it went through or not. *)
Fixpoint send_calls (tr : list event) : nat :=
  match tr with
  | [] => O
  | Send _ :: r | SendFailed _ :: r => S (send_calls r)
  | _ :: r => send_calls r
  end.

(** *** Standard output as the outside sees it

    [print] writes into the buffer of [sys.stdout], and the buffer is
    written to file descriptor 1 when it is flushed: at the end of every
    [print] when standard output is a terminal or the interpreter runs
    unbuffered, and when the buffer has filled up when standard output
    is a pipe or a file.  [os.write(1, ..)] writes to the descriptor at
    once.  So the bytes reach the descriptor in an order that need not
    be the order of the calls. *)
Record stdout : Type := {
  fd1 : string;      (* the bytes that have reached file descriptor 1 *)
  buffer : string;   (* the bytes sys.stdout still holds *)
  prints : nat       (* calls of print so far *)
}.

Definition output_step (w : World) (o : stdout) (e : event) : stdout :=
  match e with
  | Stdout text =>
      if flushed w (prints o)
      then {| fd1 := fd1 o ++ buffer o ++ text; buffer := ""; prints := S (prints o) |}
      else {| fd1 := fd1 o; buffer := buffer o ++ text; prints := S (prints o) |}
  | OsWrite text =>
      {| fd1 := fd1 o ++ text; buffer := buffer o; prints := prints o |}
  | _ => o
  end.

Definition output (w : World) (tr : list event) : stdout :=
  fold_left (output_step w) tr {| fd1 := ""; buffer := ""; prints := O |}.


(** What has reached standard output once the events of [tr] have
    happened. *)
Definition on_stdout (w : World) (tr : list event) : string := fd1 (output w tr).

(** What is still to be written then: it is written when the process
    exits, the interpreter flushing [sys.stdout] on its way out, and it
    is lost when the process is killed. *)
Definition held_back (w : World) (tr : list event) : string := buffer (output w tr).

(** All that standard output has received once a process that did [tr]
    has exited. *)
Definition at_exit (w : World) (tr : list event) : string :=
  (on_stdout w tr ++ held_back w tr)%string.

(** The text [print(data, src_ip, src_port)] writes. *)
Definition log_line (data : list byte) (src_ip : string) (src_port : Z) : string :=
  Py.print_text [Py.repr data; src_ip; Py.str src_port].




(** Lines 21 and 22 as a function of what they read: the packet handed
    to [send] for a datagram, or the exception raised on the way. *)
Definition packet_for (w : World) (destination_ip : string) (port : Z)
    (data : list byte) (src_ip : string) (src_port : Z) : Py.result Scapy.IP :=
  match Scapy.raw (inet_aton w) (resolver w) (refusal w)
          (IP_UDP_Raw destination_ip src_ip port src_port data) with
  | Py.Ok bytes => IP_of_bytes bytes
  | Py.Raise e => Py.Raise e
  end.

(** The line the script prints once the socket is bound. *)
Definition banner : event := Stdout (Py.line "Socket activated").

(** The line it prints when the socket is not. *)
Definition bind_failed : event := Stdout (Py.line "Bind failed.").

(** *** Conditions on the world *)

(** The start of the script goes through: both arguments are there, the
    second one reads as a port, the socket is created and bound. *)
Definition bound (w : World) (destination_ip : string) (port : Z) : Prop :=
  nth_error (argv w) 1 = Some destination_ip /\
  socket_ok w = true /\
  (exists a2, nth_error (argv w) 2 = Some a2 /\ Py.int a2 = Some port) /\
  fits16 port = true /\
  bind_ok w port = true.

(** The start of the script reaches [bind] with a port, and the
    operating system refuses it. *)
Definition bind_refused (w : World) (port : Z) : Prop :=
  (exists destination_ip, nth_error (argv w) 1 = Some destination_ip) /\
  socket_ok w = true /\
  (exists a2, nth_error (argv w) 2 = Some a2 /\ Py.int a2 = Some port) /\
  fits16 port = true /\
  bind_ok w port = false.

(** Fewer than two positional arguments, or a second one, of ASCII
    characters, that [int] does not read. *)
Definition bad_arguments (w : World) : Prop :=
  (List.length (argv w) < 3)%nat \/
  (exists a2, nth_error (argv w) 2 = Some a2 /\
              Py.is_ascii a2 = true /\ Py.int a2 = None).

(** The address field the destination makes, or the exception it ends
    the building of a packet with. *)
Definition destination (w : World) (destination_ip : string) : Py.result ipv4 :=
  field_address (inet_aton w) (resolver w) (refusal w) destination_ip.

(** Nothing goes wrong in the loop: the destination makes an address
    field, every receive meets a datagram whose port is a port, every
    packet leaves. *)
Definition healthy (w : World) (destination_ip : string) : Prop :=
  (exists d, destination w destination_ip = Py.Ok d) /\
  (forall i, exists B a p, incoming w i = Datagram B a p /\ fits16 p = true) /\
  (forall i, sending w i = Transmitted).

(** The second argument, when there is one, is ASCII text: the texts
    on which [int] is modelled. *)
Definition modelled (w : World) : Prop :=
  forall a2, nth_error (argv w) 2 = Some a2 -> Py.is_ascii a2 = true.


(** The addressing of a packet: IP source and destination, UDP source
    and destination port. *)
Definition addressing (p : Scapy.IP) : ipv4 * ipv4 * option Z * option Z :=
  (ip_src p, ip_dst p, sport_of p, dport_of p).

(** Two arrivals that differ at most in the payload carried. *)
Definition same_sender (x y : arrival) : Prop :=
  match x, y with
  | Datagram _ a p, Datagram _ a' p' => a = a' /\ p = p'
  | RecvFails, RecvFails => True
  | _, _ => False
  end.

(** Two worlds that differ at most in the payloads of the datagrams
    that arrive. *)
Definition same_but_payloads (w w' : World) : Prop :=
  argv w = argv w' /\
  socket_ok w = socket_ok w' /\
  (forall port, bind_ok w port = bind_ok w' port) /\
  (forall s, inet_aton w s = inet_aton w' s) /\
  (forall s, resolver w s = resolver w' s) /\
  (forall s, refusal w s = refusal w' s) /\
  (forall i, sending w i = sending w' i) /\
  (forall k, flushed w k = flushed w' k) /\
  (forall i, same_sender (incoming w i) (incoming w' i)).

(** The exception the construction of a packet ends with, read off the
    address field of the destination and the two ports. *)
Definition construction_error (d : Py.result ipv4) (port src_port : Z) : option Py.exn :=
  match d with
  | Py.Raise e => Some e
  | Py.Ok _ => if fits16 src_port && fits16 port then None else Some Py.struct_error
  end.

(** Round [j] of the loop comes back to [recvfrom]: a datagram is there,
    its packet is built, and [send] returns. *)
Definition comes_back (w : World) (destination_ip : string) (port : Z) (j : nat) : Prop :=
  exists B a p pkt,
    incoming w j = Datagram B a p /\
    packet_for w destination_ip port (take 4096 B) (inet_ntoa a) p = Py.Ok pkt /\
    sending w j <> Refused.

(** *** The shape of the events of the loop

    [loop_trace w dest port i n o evs]: from round [i] on and within [n]
    rounds, the loop leaves the events [evs] and stands at [o]. *)
Inductive loop_trace (w : World) (dest : string) (port : Z)
  : nat -> nat -> outcome unit -> list event -> Prop :=
| lt_running i :
    loop_trace w dest port i O Running []
| lt_recv_fails i n :
    incoming w i = RecvFails ->
    loop_trace w dest port i (S n) (Failed Py.OSError) [RecvfromFailed]
| lt_construct_fails i n B a p e :
    incoming w i = Datagram B a p ->
    packet_for w dest port (take 4096 B) (inet_ntoa a) p = Py.Raise e ->
    loop_trace w dest port i (S n) (Failed e)
      [Recvfrom (take 4096 B) (inet_ntoa a) p;
       Stdout (log_line (take 4096 B) (inet_ntoa a) p)]
| lt_send_fails i n B a p pkt :
    incoming w i = Datagram B a p ->
    packet_for w dest port (take 4096 B) (inet_ntoa a) p = Py.Ok pkt ->
    sending w i = Refused ->
    loop_trace w dest port i (S n) (Failed Py.OSError)
      [Recvfrom (take 4096 B) (inet_ntoa a) p;
       Stdout (log_line (take 4096 B) (inet_ntoa a) p);
       SendFailed pkt]
| lt_round i n B a p pkt o rest :
    incoming w i = Datagram B a p ->
    packet_for w dest port (take 4096 B) (inet_ntoa a) p = Py.Ok pkt ->
    sending w i = Transmitted ->
    loop_trace w dest port (S i) n o rest ->
    loop_trace w dest port i (S n) o
      (Recvfrom (take 4096 B) (inet_ntoa a) p
         :: Stdout (log_line (take 4096 B) (inet_ntoa a) p)
         :: Send pkt :: OsWrite sent_dot :: Stdout sent_count :: rest)
| lt_round_lost i n B a p pkt o rest :
    incoming w i = Datagram B a p ->
    packet_for w dest port (take 4096 B) (inet_ntoa a) p = Py.Ok pkt ->
    sending w i = Swallowed ->
    loop_trace w dest port (S i) n o rest ->
    loop_trace w dest port i (S n) o
      (Recvfrom (take 4096 B) (inet_ntoa a) p
         :: Stdout (log_line (take 4096 B) (inet_ntoa a) p)
         :: Send pkt :: SendErrorLogged :: OsWrite sent_dot :: Stdout sent_count :: rest).

End Trace.

(* ===================================================================== *)
(** ** Worlds to run the script in *)
(* ===================================================================== *)

Module Example.
Import Inet Scapy Proc Relay Trace.

Definition hello : list byte := [x68; x65; x6c; x6c; x6f].

Definition node : ipv4 := Addr xc0 xa8 x01 x14.

(** The scenario of the specification: the relay started with
    [10.0.0.5 9000] on a terminal, and [b'hello'] arriving from
    192.168.1.20:5555. *)
Definition scenario : World := {|
  argv := ["udp_forward.py"; "10.0.0.5"; "9000"];
  socket_ok := true;
  bind_ok := fun _ => true;
  incoming := fun _ => Datagram hello node 5555;
  inet_aton := fun _ => false;
  resolver := fun _ => None;
  refusal := fun _ => NoAddress;
  sending := fun _ => Transmitted;
  flushed := fun _ => true
|}.

(** The packet the scenario puts on the wire. *)
Definition scenario_packet : Scapy.IP := {|
  ip_version := 4; ip_ihl := 5; ip_tos := 0; ip_len := 33; ip_id := 1;
  ip_flags := 0; ip_frag := 0; ip_ttl := 64; ip_proto := 17;
  ip_chksum := 44810;
  ip_src := node; ip_dst := Addr x0a x00 x00 x05;
  ip_options := [];
  ip_payload := AsUDP {| udp_sport := 5555; udp_dport := 9000; udp_len := 13;
                         udp_chksum := 46949; udp_load := hello |}
|}.


(** The events of one round of the scenario. *)
Definition round : list event :=
  [Recvfrom hello "192.168.1.20" 5555;
   Stdout (log_line hello "192.168.1.20" 5555);
   Send scenario_packet;
   OsWrite sent_dot;
   Stdout sent_count].


(** The same start, with the port already taken. *)
Definition port_taken : World := {|
  argv := argv scenario;
  socket_ok := true;
  bind_ok := fun _ => false;
  incoming := incoming scenario;
  inet_aton := inet_aton scenario;
  resolver := resolver scenario;
  refusal := refusal scenario;
  sending := sending scenario;
  flushed := fun _ => false
|}.

(** The same start, without the right to send raw packets. *)
Definition unprivileged : World := {|
  argv := argv scenario;
  socket_ok := true;
  bind_ok := bind_ok scenario;
  incoming := incoming scenario;
  inet_aton := inet_aton scenario;
  resolver := resolver scenario;
  refusal := refusal scenario;
  sending := fun _ => Refused;
  flushed := flushed scenario
|}.

(** The same start, with no route to the destination when the first
    packet is sent: a socket error that scapy's raw socket logs and does
    not raise. *)
Definition unreachable : World := {|
  argv := argv scenario;
  socket_ok := true;
  bind_ok := bind_ok scenario;
  incoming := incoming scenario;
  inet_aton := inet_aton scenario;
  resolver := resolver scenario;
  refusal := refusal scenario;
  sending := fun k => match k with O => Swallowed | _ => Transmitted end;
  flushed := flushed scenario
|}.

(** The events of its first round. *)
Definition round_lost : list event :=
  [Recvfrom hello "192.168.1.20" 5555;
   Stdout (log_line hello "192.168.1.20" 5555);
   Send scenario_packet;
   SendErrorLogged;
   OsWrite sent_dot;
   Stdout sent_count].

(** The destination written with a leading zero, which [inet_aton]
    reads, as octal, and [inet_pton] refuses. *)
Definition octal : World := {|
  argv := ["udp_forward.py"; "010.0.0.5"; "9000"];
  socket_ok := true;
  bind_ok := bind_ok scenario;
  incoming := incoming scenario;
  inet_aton := fun s => (s =? "010.0.0.5")%string;
  resolver := fun s => if (s =? "010.0.0.5")%string then Some (Addr x08 x00 x00 x05) else None;
  refusal := refusal scenario;
  sending := sending scenario;
  flushed := flushed scenario
|}.

(** A datagram of 5000 bytes, then the scenario's. *)
Definition long_payload : list byte :=
  repeat x41 (Z.to_nat 4096) ++ repeat x42 (Z.to_nat 904).

Definition oversized : World := {|
  argv := argv scenario;
  socket_ok := true;
  bind_ok := bind_ok scenario;
  incoming := fun i => match i with
                       | O => Datagram long_payload node 5555
                       | _ => Datagram hello node 5555
                       end;
  inet_aton := inet_aton scenario;
  resolver := resolver scenario;
  refusal := refusal scenario;
  sending := sending scenario;
  flushed := flushed scenario
|}.


(** A port that is a number, but no port. *)
Definition port_too_large : World := {|
  argv := ["udp_forward.py"; "10.0.0.5"; "70000"];
  socket_ok := true;
  bind_ok := fun _ => false;
  incoming := incoming scenario;
  inet_aton := inet_aton scenario;
  resolver := resolver scenario;
  refusal := refusal scenario;
  sending := sending scenario;
  flushed := flushed scenario
|}.

(** No socket to be had. *)
Definition no_socket : World := {|
  argv := argv scenario;
  socket_ok := false;
  bind_ok := bind_ok scenario;
  incoming := incoming scenario;
  inet_aton := inet_aton scenario;
  resolver := resolver scenario;
  refusal := refusal scenario;
  sending := sending scenario;
  flushed := flushed scenario
|}.

(** One datagram goes through, then [recvfrom] fails. *)
Definition receive_breaks : World := {|
  argv := argv scenario;
  socket_ok := true;
  bind_ok := bind_ok scenario;
  incoming := fun i => match i with
                       | O => Datagram hello node 5555
                       | _ => RecvFails
                       end;
  inet_aton := inet_aton scenario;
  resolver := resolver scenario;
  refusal := refusal scenario;
  sending := sending scenario;
  flushed := flushed scenario
|}.

End Example.

(* ===================================================================== *)
(** ** Bytes, addresses and the wire layout *)
(* ===================================================================== *)

Import Inet Scapy Proc Relay Trace.

Lemma byte_val_of_Z (z : Z) : byte_val (byte_of_Z z) = z mod 256.
Proof.
  unfold byte_val, byte_of_Z.
  assert (Hr : 0 <= z mod 256 < 256) by (apply Z.mod_pos_bound; lia).
  destruct (Byte.of_N (Z.to_N (z mod 256))) as [b|] eqn:E.
  - apply Byte.to_of_N in E. rewrite E. lia.
  - apply Byte.of_N_None_iff in E. lia.
Qed.

Lemma fits16_iff (z : Z) : fits16 z = true <-> 0 <= z < 65536.
Proof. unfold fits16. rewrite andb_true_iff, Z.leb_le, Z.ltb_lt. reflexivity. Qed.

(** Goals and hypotheses on [fits16], as linear arithmetic. *)
Ltac fits :=
  repeat match goal with
         | H : fits16 _ = true |- _ => apply fits16_iff in H
         end;
  try apply fits16_iff; try lia.

(** A sixteen-bit value is read back from its two bytes. *)
Lemma word_be16 (z : Z) :
  fits16 z = true -> word (byte_of_Z (z / 256)) (byte_of_Z z) = z.
Proof.
  intros H. apply fits16_iff in H. unfold word.
  rewrite !byte_val_of_Z.
  rewrite (Z.mod_small (z / 256)).
  - pose proof (Z.div_mod z 256). lia.
  - split; [apply Z.div_pos; lia | apply Z.div_lt_upper_bound; lia].
Qed.

Lemma blen_nonneg (bs : list byte) : 0 <= blen bs.
Proof. unfold blen. lia. Qed.

Lemma take_blen (bs : list byte) : take (blen bs) bs = bs.
Proof. unfold take, blen. rewrite Nat2Z.id. apply firstn_all. Qed.

Lemma blen_take (n : Z) (bs : list byte) : 0 <= n -> blen (take n bs) <= n.
Proof.
  intros Hn. unfold blen, take.
  pose proof (firstn_le_length (Z.to_nat n) bs). lia.
Qed.

Lemma take_all (n : Z) (bs : list byte) : blen bs <= n -> take n bs = bs.
Proof. unfold blen, take. intros H. apply firstn_all2. lia. Qed.

Lemma blen_take_long (n : Z) (bs : list byte) : 0 <= n <= blen bs -> blen (take n bs) = n.
Proof.
  unfold blen, take. intros H. rewrite firstn_length_le by lia. lia.
Qed.

Lemma chars_app (s t : string) :
  list_ascii_of_string (s ++ t) = list_ascii_of_string s ++ list_ascii_of_string t.
Proof. induction s as [|c s IH]; cbn; [reflexivity | now rewrite IH]. Qed.

Lemma read_octet_dot_dec (b : byte) (r : list ascii) :
  read_octet_dot (list_ascii_of_string (dec b) ++ "."%char :: r) = Some (b, r).
Proof. destruct b; reflexivity. Qed.

Lemma read_octet_dec (b : byte) :
  read_octet (list_ascii_of_string (dec b)) = Some (b, []).
Proof. destruct b; reflexivity. Qed.

(** The text of an address reads back as the address. *)
Lemma parse_inet_ntoa (a : ipv4) : parse_dotted_quad (inet_ntoa a) = Some a.
Proof.
  destruct a as [a b c d]. unfold parse_dotted_quad, inet_ntoa. cbn [o1 o2 o3 o4].
  rewrite !chars_app. cbn [list_ascii_of_string app].
  rewrite !read_octet_dot_dec, read_octet_dec. reflexivity.
Qed.

Lemma address_of_inet_ntoa (r : string -> option ipv4) (a : ipv4) :
  address_of r (inet_ntoa a) = Some a.
Proof. unfold address_of. now rewrite parse_inet_ntoa. Qed.

Lemma address_of_ext (r r' : string -> option ipv4) (s : string) :
  r s = r' s -> address_of r s = address_of r' s.
Proof. unfold address_of. now intros ->. Qed.

Lemma field_address_inet_ntoa aton r f (a : ipv4) :
  field_address aton r f (inet_ntoa a) = Py.Ok a.
Proof. unfold field_address. now rewrite parse_inet_ntoa. Qed.

(** An address field that has an address has the one its text stands
    for. *)
Lemma field_address_address_of aton r f s a :
  field_address aton r f s = Py.Ok a -> address_of r s = Some a.
Proof.
  unfold field_address, address_of.
  destruct (parse_dotted_quad s); [intros H; injection H as <-; reflexivity|].
  destruct (aton s); [discriminate|].
  destruct (r s); [intros H; injection H as <-; reflexivity | discriminate].
Qed.

(** One that has none ends with an exception that is not [SystemExit]. *)
Lemma field_address_raises aton r f s e :
  field_address aton r f s = Py.Raise e -> uncaught (A := unit) (Failed e) = Some e.
Proof.
  unfold field_address.
  destruct (parse_dotted_quad s); [discriminate|].
  destruct (aton s); [intros H; injection H as <-; reflexivity|].
  destruct (r s); [discriminate|].
  intros H; injection H as <-. destruct (f s); reflexivity.
Qed.

Lemma destination_ext w w' dest :
  inet_aton w dest = inet_aton w' dest -> resolver w dest = resolver w' dest ->
  refusal w dest = refusal w' dest ->
  destination w dest = destination w' dest.
Proof. unfold destination, field_address. now intros -> -> ->. Qed.

Lemma fits16_checksum (bs : list byte) : fits16 (checksum bs) = true.
Proof.
  unfold checksum. apply fits16_iff.
  change 65535 with (Z.ones 16). rewrite !Z.land_ones by lia.
  apply Z.mod_pos_bound. lia.
Qed.

Lemma fits16_udp_checksum (s d : ipv4) (sp dp : Z) (data : list byte) :
  fits16 (udp_checksum s d sp dp data) = true.
Proof.
  unfold udp_checksum. cbv zeta.
  destruct (_ =? 0); [reflexivity | apply fits16_checksum].
Qed.

Lemma blen_udp (s d : ipv4) (sp dp : Z) (data : list byte) :
  blen (build_udp s d sp dp data) = 8 + blen data.
Proof.
  unfold build_udp, udp_header, be16, blen. rewrite !length_app. cbn [List.length]. lia.
Qed.

Lemma dissect_build_udp (s d : ipv4) (sp dp : Z) (data : list byte) :
  fits16 sp = true -> fits16 dp = true -> fits16 (28 + blen data) = true ->
  dissect_udp (build_udp s d sp dp data) =
    Some {| udp_sport := sp; udp_dport := dp; udp_len := 8 + blen data;
            udp_chksum := udp_checksum s d sp dp data; udp_load := data |}.
Proof.
  intros Hs Hd Hl. pose proof (blen_nonneg data) as Hn.
  assert (Hu : fits16 (8 + blen data) = true) by fits.
  unfold build_udp, udp_header, be16. cbn [app]. unfold dissect_udp.
  rewrite !word_be16 by (assumption || apply fits16_udp_checksum).
  replace (8 <=? 8 + blen data) with true by (symmetry; apply Z.leb_le; lia).
  replace (8 + blen data - 8) with (blen data) by lia.
  rewrite take_blen. reflexivity.
Qed.

Lemma dissect_build_ip (s d : ipv4) (body : list byte) :
  fits16 (20 + blen body) = true ->
  IP_dissect (build_ip s d body) =
    Some {| ip_version := 4; ip_ihl := 5; ip_tos := 0; ip_len := 20 + blen body;
            ip_id := 1; ip_flags := 0; ip_frag := 0; ip_ttl := 64; ip_proto := 17;
            ip_chksum := ip_checksum (20 + blen body) s d;
            ip_src := s; ip_dst := d; ip_options := [];
            ip_payload := match dissect_udp body with
                          | Some u => AsUDP u
                          | None => AsRaw body
                          end |}.
Proof.
  intros Hl. pose proof (blen_nonneg body) as Hn.
  destruct s as [s1 s2 s3 s4], d as [d1 d2 d3 d4].
  unfold build_ip, ip_header, be16, octets. cbn [app o1 o2 o3 o4]. unfold IP_dissect.
  rewrite !word_be16 by (assumption || apply fits16_checksum || reflexivity).
  change (byte_val x45 mod 16) with 5. change (byte_val x45 / 16) with 4.
  change (byte_val x00) with 0. change (byte_val x40) with 64. change (byte_val x11) with 17.
  change (0 mod 8192) with 0. change (0 / 8192) with 0.
  change (4 * 5 - 20) with 0. change (Z.to_nat 0) with O. cbn [skipn firstn].
  change (4 * 5) with 20.
  replace (20 <=? 20 + blen body) with true by (symmetry; apply Z.leb_le; lia).
  replace (20 + blen body - 20) with (blen body) by lia.
  rewrite take_blen. reflexivity.
Qed.

(* ===================================================================== *)
(** ** The packet built for a datagram *)
(* ===================================================================== *)

Lemma packet_for_fields w dest port data a p pkt :
  packet_for w dest port data (inet_ntoa a) p = Py.Ok pkt ->
  ip_src pkt = a /\
  address_of (resolver w) dest = Some (ip_dst pkt) /\
  sport_of pkt = Some p /\
  dport_of pkt = Some port /\
  payload_of pkt = Some data.
Proof.
  unfold packet_for, Scapy.raw. cbn [dst src sport dport load].
  rewrite field_address_inet_ntoa.
  destruct (field_address _ _ _ dest) as [d|e] eqn:Hd; [|discriminate].
  apply field_address_address_of in Hd. rewrite Hd.
  destruct (fits16 p) eqn:Hp; [|discriminate].
  destruct (fits16 port) eqn:Hport; [|discriminate].
  destruct (fits16 (28 + blen data)) eqn:Hl; [|discriminate].
  cbn [andb]. unfold IP_of_bytes.
  rewrite dissect_build_ip
    by (rewrite blen_udp; now replace (20 + (8 + blen data)) with (28 + blen data) by lia).
  rewrite dissect_build_udp by assumption.
  intros H. injection H as <-. unfold sport_of, dport_of, payload_of. cbn. auto.
Qed.

Lemma packet_for_ok w dest port data a p d :
  destination w dest = Py.Ok d ->
  fits16 port = true -> fits16 p = true -> blen data <= 4096 ->
  exists pkt, packet_for w dest port data (inet_ntoa a) p = Py.Ok pkt.
Proof.
  intros Hd Hport Hp Hlen.
  assert (Hl : fits16 (28 + blen data) = true)
    by (pose proof (blen_nonneg data); fits).
  unfold destination in Hd.
  unfold packet_for, Scapy.raw. cbn [dst src sport dport load].
  rewrite field_address_inet_ntoa, Hd, Hp, Hport, Hl. cbn [andb]. unfold IP_of_bytes.
  rewrite dissect_build_ip
    by (rewrite blen_udp; now replace (20 + (8 + blen data)) with (28 + blen data) by lia).
  eexists. reflexivity.
Qed.

Lemma packet_for_outcome w dest port data a p :
  blen data <= 4096 ->
  match packet_for w dest port data (inet_ntoa a) p with
  | Py.Ok _ => construction_error (destination w dest) port p = None
  | Py.Raise e => construction_error (destination w dest) port p = Some e
  end.
Proof.
  intros Hlen.
  assert (Hl : fits16 (28 + blen data) = true)
    by (pose proof (blen_nonneg data); fits).
  unfold packet_for, Scapy.raw, construction_error, destination.
  cbn [dst src sport dport load].
  rewrite field_address_inet_ntoa, Hl, andb_true_r.
  destruct (field_address _ _ _ dest) as [d|e]; [|reflexivity].
  destruct (fits16 p && fits16 port); [|reflexivity].
  unfold IP_of_bytes.
  rewrite dissect_build_ip
    by (rewrite blen_udp; now replace (20 + (8 + blen data)) with (28 + blen data) by lia).
  reflexivity.
Qed.

(** The construction of a packet ends with no [SystemExit]. *)
Lemma packet_for_raises w dest port data a p e :
  blen data <= 4096 ->
  packet_for w dest port data (inet_ntoa a) p = Py.Raise e ->
  uncaught (A := unit) (Failed e) = Some e.
Proof.
  intros Hlen Hp. pose proof (packet_for_outcome w dest port data a p Hlen) as H.
  rewrite Hp in H. unfold construction_error in H.
  destruct (destination w dest) as [d|e'] eqn:Hd.
  - destruct (fits16 p && fits16 port); [discriminate | injection H as <-; reflexivity].
  - injection H as <-. exact (field_address_raises _ _ _ _ _ Hd).
Qed.

(* ===================================================================== *)
(** ** One round of the loop *)
(* ===================================================================== *)

(** The script's own steps, in terms of [packet_for], the answers of the
    world and the events left. *)
Lemma construct_run w st dest data sip sp a2 port :
  nth_error (argv w) 2 = Some a2 -> Py.int a2 = Some port ->
  construct dest data sip sp w st =
    (match packet_for w dest port data sip sp with
     | Py.Ok pkt => Done pkt
     | Py.Raise e => Failed e
     end, st).
Proof.
  intros Ha Hi. unfold construct, bind, sys_argv, int, raw, IP, packet_for.
  rewrite Ha. cbn [ret]. rewrite Hi. cbn [ret].
  destruct (Scapy.raw _ _) as [bytes|e]; cbn [lift ret raise]; [|reflexivity].
  destruct (IP_of_bytes bytes); reflexivity.
Qed.

Lemma iteration_run w st dest a2 port :
  nth_error (argv w) 2 = Some a2 -> Py.int a2 = Some port ->
  iteration dest w st =
    match incoming w (recvs st) with
    | RecvFails =>
        (Failed Py.OSError,
         {| trace := trace st ++ [RecvfromFailed]; recvs := S (recvs st); sends := sends st |})
    | Datagram B a p =>
        let data := take 4096 B in
        let pre := trace st ++ [Recvfrom data (inet_ntoa a) p; Stdout (log_line data (inet_ntoa a) p)] in
        match packet_for w dest port data (inet_ntoa a) p with
        | Py.Raise e =>
            (Failed e, {| trace := pre; recvs := S (recvs st); sends := sends st |})
        | Py.Ok pkt =>
            match sending w (sends st) with
            | Transmitted =>
                (Done tt,
                 {| trace := pre ++ [Send pkt; OsWrite sent_dot; Stdout sent_count];
                    recvs := S (recvs st); sends := S (sends st) |})
            | Swallowed =>
                (Done tt,
                 {| trace := pre ++ [Send pkt; SendErrorLogged; OsWrite sent_dot; Stdout sent_count];
                    recvs := S (recvs st); sends := S (sends st) |})
            | Refused =>
                (Failed Py.OSError,
                 {| trace := pre ++ [SendFailed pkt]; recvs := S (recvs st); sends := S (sends st) |})
            end
        end
    end.
Proof.
  intros Ha Hi. unfold iteration, bind at 1, sock_recvfrom.
  destruct (incoming w (recvs st)) as [B a p|]; [|reflexivity].
  unfold bind at 1, print, forward, bind at 1.
  rewrite (construct_run _ _ _ _ _ _ _ _ Ha Hi).
  unfold emit. cbn [trace recvs sends]. rewrite <- !app_assoc. cbn [app].
  fold (log_line (take 4096 B) (inet_ntoa a) p).
  destruct (packet_for _ _ _ _ _ _) as [pkt|e]; [|reflexivity].
  unfold send. cbn [trace recvs sends].
  destruct (sending w (sends st)); unfold emit; cbn [trace recvs sends];
    rewrite <- !app_assoc; reflexivity.
Qed.

(* ===================================================================== *)
(** ** The events of the loop *)
(* ===================================================================== *)

Lemma received_app (tr tr' : list event) :
  received (tr ++ tr') = received tr ++ received tr'.
Proof.
  induction tr as [|[] tr IH]; cbn [app received]; rewrite ?IH; reflexivity.
Qed.

Lemma forwarded_app (tr tr' : list event) :
  forwarded (tr ++ tr') = forwarded tr ++ forwarded tr'.
Proof.
  induction tr as [|[] tr IH]; cbn [app forwarded]; rewrite ?IH; reflexivity.
Qed.

Lemma send_calls_app (tr tr' : list event) :
  send_calls (tr ++ tr') = (send_calls tr + send_calls tr')%nat.
Proof.
  induction tr as [|[] tr IH]; cbn [app send_calls]; rewrite ?IH; reflexivity.
Qed.

Lemma log_line_head data sip sp : exists r, log_line data sip sp = String "b" r.
Proof. unfold log_line, Py.print_text, Py.repr. cbn. eexists. reflexivity. Qed.


Lemma while_shape w dest port a2 :
  nth_error (argv w) 2 = Some a2 -> Py.int a2 = Some port ->
  forall n st, recvs st = sends st ->
  exists evs,
    loop_trace w dest port (recvs st) n (fst (while_1 n (iteration dest) w st)) evs /\
    trace (snd (while_1 n (iteration dest) w st)) = trace st ++ evs.
Proof.
  intros Ha Hi. induction n as [|n IH]; intros st Hc.
  - exists []. cbn. split; [constructor | now rewrite app_nil_r].
  - cbn [while_1]. unfold bind. rewrite (iteration_run _ _ _ _ _ Ha Hi).
    destruct (incoming w (recvs st)) as [B a p|] eqn:Hin.
    + cbv zeta.
      destruct (packet_for w dest port (take 4096 B) (inet_ntoa a) p) as [pkt|e] eqn:Hp.
      * rewrite <- Hc. destruct (sending w (recvs st)) eqn:Hs.
        -- match goal with |- context [while_1 n _ w ?s] => destruct (IH s) as [evs [Hl Ht]] end;
             [cbn; congruence|].
           cbn [recvs] in Hl. cbn [trace] in Ht.
           eexists. split; [eapply lt_round; eassumption|].
           rewrite Ht, <- !app_assoc. reflexivity.
        -- match goal with |- context [while_1 n _ w ?s] => destruct (IH s) as [evs [Hl Ht]] end;
             [cbn; congruence|].
           cbn [recvs] in Hl. cbn [trace] in Ht.
           eexists. split; [eapply lt_round_lost; eassumption|].
           rewrite Ht, <- !app_assoc. reflexivity.
        -- eexists. split; [eapply lt_send_fails; eassumption|].
           cbn [snd trace]. rewrite <- app_assoc. reflexivity.
      * eexists. split; [eapply lt_construct_fails; eassumption | reflexivity].
    + eexists. split; [eapply lt_recv_fails; eassumption | reflexivity].
Qed.

Lemma while_resume w dest port a2 :
  nth_error (argv w) 2 = Some a2 -> Py.int a2 = Some port ->
  forall i m st,
    fst (while_1 i (iteration dest) w st) = Running ->
    while_1 (i + m) (iteration dest) w st =
      while_1 m (iteration dest) w (snd (while_1 i (iteration dest) w st)).
Proof.
  intros Ha Hi. induction i as [|i IH]; intros m st H.
  - reflexivity.
  - cbn [while_1 Nat.add] in *. unfold bind in *.
    rewrite (iteration_run _ _ _ _ _ Ha Hi) in *.
    destruct (incoming w (recvs st)) as [B a p|]; [|discriminate].
    cbv zeta in *.
    destruct (packet_for _ _ _ _ _ _) as [pkt|e]; [|discriminate].
    destruct (sending w (sends st)); [| |discriminate]; now apply IH.
Qed.

Lemma while_counters w dest port a2 :
  nth_error (argv w) 2 = Some a2 -> Py.int a2 = Some port ->
  forall n st,
    fst (while_1 n (iteration dest) w st) = Running ->
    recvs (snd (while_1 n (iteration dest) w st)) = (recvs st + n)%nat /\
    sends (snd (while_1 n (iteration dest) w st)) = (sends st + n)%nat.
Proof.
  intros Ha Hi. induction n as [|n IH]; intros st H.
  - cbn. lia.
  - cbn [while_1] in *. unfold bind in *. rewrite (iteration_run _ _ _ _ _ Ha Hi) in *.
    destruct (incoming w (recvs st)) as [B a p|]; [|discriminate].
    cbv zeta in *.
    destruct (packet_for _ _ _ _ _ _) as [pkt|e]; [|discriminate].
    destruct (sending w (sends st)); [| |discriminate];
      destruct (IH _ H) as [H1 H2]; cbn [recvs sends] in H1, H2; lia.
Qed.

(** As long as every round comes back to [recvfrom], the loop is
    running. *)
Lemma while_comes_back w dest port a2 :
  nth_error (argv w) 2 = Some a2 -> Py.int a2 = Some port ->
  forall i st,
    recvs st = sends st ->
    (forall j, (j < i)%nat -> comes_back w dest port (recvs st + j)) ->
    fst (while_1 i (iteration dest) w st) = Running.
Proof.
  intros Ha Hi. induction i as [|i IH]; intros st Hc Hj.
  - reflexivity.
  - cbn [while_1]. unfold bind. rewrite (iteration_run _ _ _ _ _ Ha Hi).
    destruct (Hj O ltac:(lia)) as (B & a & p & pkt & Hin & Hp & Hs).
    rewrite Nat.add_0_r in Hin, Hs. rewrite Hin. cbv zeta. rewrite Hp.
    rewrite <- Hc.
    destruct (sending w (recvs st)); [| |contradiction];
      (apply IH; cbn [recvs sends]; [congruence|];
       intros j Hlt; replace (S (recvs st) + j)%nat with (recvs st + S j)%nat by lia;
       apply Hj; lia).
Qed.

(** Induction on the rounds of the loop, one case for each way a round
    can end. *)
Ltac by_rounds :=
  induction 1 as [i | i n Hin | i n B a p e Hin Hp | i n B a p pkt Hin Hp Hs
                 | i n B a p pkt o rest Hin Hp Hs Hrest IH
                 | i n B a p pkt o rest Hin Hp Hs Hrest IH].

Section LoopTrace.
Variables (w : World) (dest : string) (port : Z).

Lemma loop_trace_received i n o evs :
  loop_trace w dest port i n o evs ->
  forall j data sip sp,
    nth_error (received evs) j = Some (data, sip, sp) ->
    exists B a, incoming w (i + j) = Datagram B a sp /\ data = take 4096 B /\ sip = inet_ntoa a.
Proof.
  by_rounds; intros j data sip sp Hj; cbn [received nth_error] in Hj.
  - destruct j; discriminate.
  - destruct j; discriminate.
  - destruct j as [|[|j]]; try discriminate. injection Hj as <- <- <-.
    rewrite Nat.add_0_r. eauto.
  - destruct j as [|[|j]]; try discriminate. injection Hj as <- <- <-.
    rewrite Nat.add_0_r. eauto.
  - destruct j as [|j].
    + injection Hj as <- <- <-. rewrite Nat.add_0_r. eauto.
    + cbn [nth_error] in Hj. replace (i + S j)%nat with (S i + j)%nat by lia. eauto.
  - destruct j as [|j].
    + injection Hj as <- <- <-. rewrite Nat.add_0_r. eauto.
    + cbn [nth_error] in Hj. replace (i + S j)%nat with (S i + j)%nat by lia. eauto.
Qed.

Lemma loop_trace_forwarded i n o evs :
  loop_trace w dest port i n o evs ->
  forall j pkt,
    nth_error (forwarded evs) j = Some pkt ->
    exists B a p, incoming w (i + j) = Datagram B a p /\
      packet_for w dest port (take 4096 B) (inet_ntoa a) p = Py.Ok pkt /\
      nth_error (received evs) j = Some (take 4096 B, inet_ntoa a, p).
Proof.
  by_rounds; intros j q Hj;
    cbn [forwarded received nth_error] in *;
    try (destruct j; discriminate).
  - destruct j as [|j].
    + injection Hj as <-. rewrite Nat.add_0_r. eauto 6.
    + cbn [nth_error] in *. replace (i + S j)%nat with (S i + j)%nat by lia. eauto.
  - destruct j as [|j].
    + injection Hj as <-. rewrite Nat.add_0_r. eauto 6.
    + cbn [nth_error] in *. replace (i + S j)%nat with (S i + j)%nat by lia. eauto.
Qed.

Lemma loop_trace_at_recv i n o evs :
  loop_trace w dest port i n o evs ->
  forall before data sip sp after,
    evs = before ++ Recvfrom data sip sp :: after ->
    List.length (forwarded before) = List.length (received before) /\
    send_calls before = List.length (received before) /\
    List.length (printed before) = (3 * List.length (received before))%nat /\
    exists after', after = Stdout (log_line data sip sp) :: after'.
Proof.
  by_rounds;
    intros before data sip sp after E.
  - destruct before; discriminate.
  - destruct before as [|? [|? ?]]; discriminate.
  - destruct before as [|? [|? [|? ?]]]; try discriminate.
    injection E as <- <- <- <-. cbn [forwarded received printed send_calls List.length]. eauto.
  - destruct before as [|? [|? [|? [|? ?]]]]; try discriminate.
    injection E as <- <- <- <-. cbn [forwarded received printed send_calls List.length]. eauto.
  - destruct before as [|? [|? [|? [|? [|? before]]]]]; try discriminate.
    + injection E as <- <- <- <-. cbn [forwarded received printed send_calls List.length]. eauto.
    + injection E as <- <- <- <- <- E.
      destruct (IH _ _ _ _ _ E) as (H1 & H2 & H3 & H4).
      cbn [forwarded received printed send_calls List.length]. repeat split; auto; lia.
  - destruct before as [|? [|? [|? [|? [|? [|? before]]]]]]; try discriminate.
    + injection E as <- <- <- <-. cbn [forwarded received printed send_calls List.length]. eauto.
    + injection E as <- <- <- <- <- <- E.
      destruct (IH _ _ _ _ _ E) as (H1 & H2 & H3 & H4).
      cbn [forwarded received printed send_calls List.length]. repeat split; auto; lia.
Qed.

Lemma loop_trace_at_send i n o evs :
  loop_trace w dest port i n o evs ->
  forall before pkt after,
    evs = before ++ Send pkt :: after ->
    exists earlier data sip sp,
      before = earlier ++ [Recvfrom data sip sp; Stdout (log_line data sip sp)] /\
      List.length (forwarded earlier) = List.length (received earlier) /\
      List.length (printed earlier) = (3 * List.length (received earlier))%nat /\
      (exists a, sip = inet_ntoa a /\ packet_for w dest port data sip sp = Py.Ok pkt).
Proof.
  by_rounds;
    intros before q after E.
  - destruct before; discriminate.
  - destruct before as [|? [|? ?]]; discriminate.
  - destruct before as [|? [|? [|? ?]]]; discriminate.
  - destruct before as [|? [|? [|? [|? ?]]]]; discriminate.
  - destruct before as [|? [|? [|? [|? [|? before]]]]]; try discriminate.
    + injection E as <- <- <- <-. exists []. do 3 eexists.
      split; [reflexivity|]. cbn [forwarded received printed List.length]. eauto 6.
    + injection E as <- <- <- <- <- E.
      destruct (IH _ _ _ E) as (earlier & data & sip & sp & -> & H1 & H2 & H3).
      eexists (_ :: _ :: _ :: _ :: _ :: earlier). do 3 eexists.
      split; [reflexivity|].
      cbn [forwarded received printed List.length]. repeat split; auto; lia.
  - destruct before as [|? [|? [|? [|? [|? [|? before]]]]]]; try discriminate.
    + injection E as <- <- <- <-. exists []. do 3 eexists.
      split; [reflexivity|]. cbn [forwarded received printed List.length]. eauto 6.
    + injection E as <- <- <- <- <- <- E.
      destruct (IH _ _ _ E) as (earlier & data & sip & sp & -> & H1 & H2 & H3).
      eexists (_ :: _ :: _ :: _ :: _ :: _ :: earlier). do 3 eexists.
      split; [reflexivity|].
      cbn [forwarded received printed List.length]. repeat split; auto; lia.
Qed.

Lemma loop_trace_at_stdout i n o evs :
  loop_trace w dest port i n o evs ->
  forall before s after,
    evs = before ++ Stdout s :: after ->
    s = sent_count \/
    exists earlier data sip sp,
      before = earlier ++ [Recvfrom data sip sp] /\ s = log_line data sip sp.
Proof.
  by_rounds;
    intros before s after E.
  - destruct before; discriminate.
  - destruct before as [|? [|? ?]]; discriminate.
  - destruct before as [|? [|? [|? ?]]]; try discriminate.
    injection E as <- <- <-. right. exists []. do 3 eexists. split; reflexivity.
  - destruct before as [|? [|? [|? [|? ?]]]]; try discriminate.
    injection E as <- <- <-. right. exists []. do 3 eexists. split; reflexivity.
  - destruct before as [|? [|? [|? [|? [|? before]]]]]; try discriminate.
    + injection E as <- <- <-. right. exists []. do 3 eexists. split; reflexivity.
    + injection E as <- <- <- <- <- <-. auto.
    + injection E as <- <- <- <- <- E.
      destruct (IH _ _ _ E) as [-> | (earlier & data & sip & sp & -> & ->)]; auto.
      right. eexists (_ :: _ :: _ :: _ :: _ :: earlier). do 3 eexists.
      split; reflexivity.
  - destruct before as [|? [|? [|? [|? [|? [|? before]]]]]]; try discriminate.
    + injection E as <- <- <-. right. exists []. do 3 eexists. split; reflexivity.
    + injection E as <- <- <- <- <- <- <-. auto.
    + injection E as <- <- <- <- <- <- E.
      destruct (IH _ _ _ E) as [-> | (earlier & data & sip & sp & -> & ->)]; auto.
      right. eexists (_ :: _ :: _ :: _ :: _ :: _ :: earlier). do 3 eexists.
      split; reflexivity.
Qed.



Lemma loop_trace_never_done i n o evs :
  loop_trace w dest port i n o evs -> o = Running \/ exists e, o = Failed e.
Proof. induction 1; eauto. Qed.

End LoopTrace.

Section LoopCounts.
Variables (w : World) (dest : string) (port : Z).

Lemma loop_trace_running i n evs :
  loop_trace w dest port i n Running evs ->
  List.length (received evs) = n /\ List.length (forwarded evs) = n /\ send_calls evs = n.
Proof.
  intros H. remember Running as o eqn:Eo. revert Eo.
  induction H as [i | i n Hin | i n B a p e Hin Hp | i n B a p pkt Hin Hp Hs
                 | i n B a p pkt o rest Hin Hp Hs Hrest IH
                 | i n B a p pkt o rest Hin Hp Hs Hrest IH]; intros Eo; try discriminate.
  - cbn. auto.
  - destruct (IH Eo) as (H1 & H2 & H3).
    cbn [forwarded received send_calls List.length]. auto.
  - destruct (IH Eo) as (H1 & H2 & H3).
    cbn [forwarded received send_calls List.length]. auto.
Qed.

Lemma loop_trace_healthy i n o evs :
  fits16 port = true -> healthy w dest ->
  loop_trace w dest port i n o evs ->
  o = Running /\ transmitted evs = forwarded evs.
Proof.
  intros Hport ((d & Hd) & Hin & Hsend).
  induction 1 as [i | i n Hi | i n B a p e Hi Hp | i n B a p pkt Hi Hp Hs
                 | i n B a p pkt o rest Hi Hp Hs Hrest IH
                 | i n B a p pkt o rest Hi Hp Hs Hrest IH]; auto.
  - destruct (Hin i) as (B & a & p & E & _). congruence.
  - destruct (Hin i) as (B' & a' & p' & E & Hf).
    rewrite Hi in E. injection E as <- <- <-.
    destruct (packet_for_ok w dest port (take 4096 B) a p d Hd Hport Hf) as [pkt Hpkt];
      [apply blen_take; lia | congruence].
  - rewrite Hsend in Hs. discriminate.
  - destruct IH as [-> IH]. split; [reflexivity|].
    cbn [transmitted forwarded]. now rewrite IH.
  - rewrite Hsend in Hs. discriminate.
Qed.

End LoopCounts.

(** The loop ends with no [SystemExit]. *)
Lemma loop_trace_failure w dest port i n e evs :
  loop_trace w dest port i n (Failed e) evs ->
  uncaught (A := unit) (Failed e) = Some e.
Proof.
  intros H. remember (Failed e) as o eqn:Eo. revert Eo.
  induction H as [i | i n Hin | i n B a p e' Hin Hp | i n B a p pkt Hin Hp Hs
                 | i n B a p pkt o rest Hin Hp Hs Hrest IH
                 | i n B a p pkt o rest Hin Hp Hs Hrest IH]; intros Eo;
    try discriminate; try (injection Eo as <-); auto.
  exact (packet_for_raises _ _ _ _ _ _ _ (blen_take 4096 B ltac:(lia)) Hp).
Qed.

Section PayloadBlind.
Variables (w w' : World) (dest : string) (port : Z).
Hypothesis inet_aton_same : forall s, inet_aton w s = inet_aton w' s.
Hypothesis resolver_same : forall s, resolver w s = resolver w' s.
Hypothesis refusal_same : forall s, refusal w s = refusal w' s.
Hypothesis sending_same : forall i, sending w i = sending w' i.
Hypothesis sender_same : forall i, same_sender (incoming w i) (incoming w' i).

Lemma packet_for_blind B B' a p :
  match packet_for w dest port (take 4096 B) (inet_ntoa a) p,
        packet_for w' dest port (take 4096 B') (inet_ntoa a) p with
  | Py.Ok pkt, Py.Ok pkt' => addressing pkt = addressing pkt'
  | Py.Raise e, Py.Raise e' => e = e'
  | _, _ => False
  end.
Proof.
  pose proof (packet_for_outcome w dest port (take 4096 B) a p
                (blen_take 4096 B ltac:(lia))) as H.
  pose proof (packet_for_outcome w' dest port (take 4096 B') a p
                (blen_take 4096 B' ltac:(lia))) as H'.
  rewrite <- (destination_ext w w' dest (inet_aton_same dest) (resolver_same dest)
                (refusal_same dest)) in H'.
  destruct (packet_for w dest port (take 4096 B) (inet_ntoa a) p) as [pkt|e] eqn:E,
           (packet_for w' dest port (take 4096 B') (inet_ntoa a) p) as [pkt'|e'] eqn:E';
    try congruence.
  destruct (packet_for_fields _ _ _ _ _ _ _ E) as (H1 & H2 & H3 & H4 & _).
  destruct (packet_for_fields _ _ _ _ _ _ _ E') as (H1' & H2' & H3' & H4' & _).
  rewrite <- (address_of_ext _ _ dest (resolver_same dest)) in H2'.
  unfold addressing. congruence.
Qed.

Lemma loop_trace_blind i n o evs :
  loop_trace w dest port i n o evs ->
  forall o' evs',
    loop_trace w' dest port i n o' evs' ->
    o = o' /\ map addressing (forwarded evs) = map addressing (forwarded evs').
Proof.
  by_rounds;
    intros o' evs' H';
    inversion H' as [? | ? ? Hin' | ? ? B' a' p' e' Hin' Hp'
                    | ? ? B' a' p' pkt' Hin' Hp' Hs'
                    | ? ? B' a' p' pkt' ? rest' Hin' Hp' Hs' Hrest'
                    | ? ? B' a' p' pkt' ? rest' Hin' Hp' Hs' Hrest']; subst;
    try (split; reflexivity);
    pose proof (sender_same i) as Hsame; rewrite Hin, Hin' in Hsame;
    cbn [same_sender] in Hsame; try contradiction;
    destruct Hsame as [<- <-];
    pose proof (packet_for_blind B B' a p) as Hblind; rewrite Hp, Hp' in Hblind;
    try contradiction; try (rewrite sending_same in Hs; congruence).
  - subst. split; reflexivity.
  - destruct (IH _ _ Hrest') as [-> Hm]. cbn [forwarded map]. rewrite Hblind, Hm. auto.
  - destruct (IH _ _ Hrest') as [-> Hm]. cbn [forwarded map]. rewrite Hblind, Hm. auto.
Qed.

End PayloadBlind.

(* ===================================================================== *)
(** ** The start of the script *)
(* ===================================================================== *)

(** The start of the script, decision by decision. *)
Lemma main_start w n :
  main n w initial =
    match nth_error (argv w) 1 with
    | None => (Failed Py.IndexError, initial)
    | Some dest =>
      if socket_ok w
      then match nth_error (argv w) 2 with
           | None => (Failed Py.IndexError, initial)
           | Some a2 =>
             match Py.int a2 with
             | None => (Failed Py.ValueError, initial)
             | Some port =>
               if fits16 port
               then if bind_ok w port
                    then while_1 n (iteration dest) w
                           {| trace := [banner]; recvs := 0; sends := 0 |}
                    else (Failed (Py.SystemExit 1),
                          {| trace := [bind_failed]; recvs := 0; sends := 0 |})
               else (Failed Py.OverflowError, initial)
             end
           end
      else (Failed Py.OSError, initial)
    end.
Proof.
  unfold main, bind at 1, sys_argv at 1.
  destruct (nth_error (argv w) 1) as [dest|]; [|reflexivity].
  cbn [ret]. unfold bind at 1, socket_socket.
  destruct (socket_ok w); [|reflexivity].
  cbn [ret]. unfold bind at 1, try_except, bind at 1, sys_argv at 1.
  destruct (nth_error (argv w) 2) as [a2|]; [|reflexivity].
  cbn [ret]. unfold bind at 1, int at 1.
  destruct (Py.int a2) as [port|]; [|reflexivity].
  cbn [ret]. unfold sock_bind.
  destruct (fits16 port); [|reflexivity].
  destruct (bind_ok w port); reflexivity.
Qed.

Lemma main_bound w dest port n :
  bound w dest port ->
  main n w initial =
    while_1 n (iteration dest) w {| trace := [banner]; recvs := 0; sends := 0 |}.
Proof.
  intros (H1 & Hs & (a2 & H2 & Hi) & Hf & Hb).
  now rewrite main_start, H1, Hs, H2, Hi, Hf, Hb.
Qed.

Lemma run_shape w dest port n :
  bound w dest port ->
  exists evs,
    loop_trace w dest port 0 n (fst (run n w)) evs /\
    trace (snd (run n w)) = banner :: evs.
Proof.
  intros Hb. unfold run. rewrite (main_bound _ _ _ _ Hb).
  destruct Hb as (_ & _ & (a2 & H2 & Hi) & _ & _).
  destruct (while_shape w dest port a2 H2 Hi n {| trace := [banner]; recvs := 0; sends := 0 |} eq_refl)
    as [evs [Hl Ht]].
  exists evs. split; assumption.
Qed.

Lemma run_refused w port n :
  bind_refused w port ->
  run n w = (Failed (Py.SystemExit 1), {| trace := [bind_failed]; recvs := 0; sends := 0 |}).
Proof.
  intros ((dest & H1) & Hs & (a2 & H2 & Hi) & Hf & Hb).
  unfold run. now rewrite main_start, H1, Hs, H2, Hi, Hf, Hb.
Qed.

Lemma run_bad_arguments w n :
  bad_arguments w ->
  exists e, run n w = (Failed e, initial) /\
            (e = Py.IndexError \/ e = Py.ValueError \/ e = Py.OSError).
Proof.
  intros Hbad. unfold run. rewrite main_start.
  destruct (nth_error (argv w) 1) as [dest|]; [|eauto].
  destruct (socket_ok w); [|eauto 6].
  destruct Hbad as [Hlen | (a2 & H2 & _ & Hi)].
  - assert (H2 : nth_error (argv w) 2 = None) by (apply nth_error_None; lia).
    rewrite H2. eauto.
  - rewrite H2, Hi. eauto 6.
Qed.

(** Whatever the world, the script either gets past [bind], or stops
    before it with nothing printed, or stops at it with its one line. *)
Lemma run_cases w n :
  (exists dest port, bound w dest port) \/
  (exists e, run n w = (Failed e, initial) /\ uncaught (A := unit) (Failed e) = Some e) \/
  run n w = (Failed (Py.SystemExit 1), {| trace := [bind_failed]; recvs := 0; sends := 0 |}).
Proof.
  unfold run, bound. rewrite main_start.
  destruct (nth_error (argv w) 1) as [dest|]; [|eauto].
  destruct (socket_ok w); [|eauto].
  destruct (nth_error (argv w) 2) as [a2|]; [|eauto].
  destruct (Py.int a2) as [port|] eqn:Hi; [|eauto].
  destruct (fits16 port) eqn:Hf; [|eauto].
  destruct (bind_ok w port) eqn:Hb; [|auto].
  left. exists dest, port. eauto 10.
Qed.

(** The events of a run, whatever the world: nothing, the line of the
    failed bind, or the banner and the events of the loop. *)
Lemma run_trace w n :
  trace (snd (run n w)) = [] \/
  trace (snd (run n w)) = [bind_failed] \/
  exists dest port evs,
    bound w dest port /\
    loop_trace w dest port 0 n (fst (run n w)) evs /\
    trace (snd (run n w)) = banner :: evs.
Proof.
  destruct (run_cases w n) as [(dest & port & Hb) | [(e & -> & _) | ->]]; auto.
  destruct (run_shape w dest port n Hb) as (evs & Hl & Ht). eauto 10.
Qed.

(** The exit status of a run is never 0: the script does not run off its
    end and does not call [sys.exit(0)]. *)
Lemma run_never_exits_0 w n : exit_status (fst (run n w)) <> Some 0.
Proof.
  destruct (run_cases w n) as [(dest & port & Hb) | [(e & -> & He) | ->]].
  - destruct (run_shape w dest port n Hb) as (evs & Hl & _).
    destruct (loop_trace_never_done _ _ _ _ _ _ _ Hl) as [-> | [e E]]; [discriminate|].
    rewrite E in *.
    pose proof (loop_trace_failure _ _ _ _ _ _ _ Hl) as He.
    destruct e; discriminate.
  - cbn [fst] in *. destruct e; discriminate.
  - discriminate.
Qed.

Lemma bound_same_but_payloads w w' dest port :
  same_but_payloads w w' -> bound w dest port -> bound w' dest port.
Proof.
  intros (Ha & Hs & Hb & _) (H1 & H2 & H3 & H4 & H5).
  unfold bound. rewrite <- Ha, <- Hs, <- Hb. auto.
Qed.

(* ===================================================================== *)
(** ** The text of a log line *)
(* ===================================================================== *)

Lemma append_nil_r (s : string) : (s ++ "")%string = s.
Proof. induction s as [|c s IH]; cbn; [reflexivity | now rewrite IH]. Qed.






















(* ===================================================================== *)
(** ** What reaches standard output *)
(* ===================================================================== *)





(** One [print] and then the exit: the text is on standard output,
    flushed at the call or on the way out. *)
Lemma at_exit_one_print w text : at_exit w [Stdout text] = text.
Proof.
  unfold at_exit, on_stdout, held_back, output. cbn [fold_left output_step prints fd1 buffer].
  destruct (flushed w 0); cbn [fd1 buffer String.append]; [apply append_nil_r | reflexivity].
Qed.

Lemma transmitted_app_recv (tr : list event) data sip sp (r : list event) :
  transmitted (tr ++ Recvfrom data sip sp :: r) =
    transmitted tr ++ transmitted (Recvfrom data sip sp :: r).
Proof.
  induction tr as [|e tr IH]; [reflexivity|].
  destruct e; cbn [app transmitted]; rewrite ?IH; try reflexivity.
  destruct tr as [|[] tr]; cbn [app transmitted] in *; rewrite ?IH; reflexivity.
Qed.

(* ===================================================================== *)
(** ** What [int] reads is ASCII *)
(* ===================================================================== *)


Lemma is_space_ascii c : Py.is_space c = true -> Py.ascii_char c = true.
Proof.
  unfold Py.is_space, Py.ascii_char. intros H. apply Z.ltb_lt.
  apply orb_true_iff in H. destruct H as [H | H].
  - apply Z.eqb_eq in H. lia.
  - apply andb_true_iff in H. destruct H as [_ H]. apply Z.leb_le in H. lia.
Qed.

Lemma digit_value_ascii c d : Py.digit_value c = Some d -> Py.ascii_char c = true.
Proof.
  unfold Py.digit_value, Py.ascii_char.
  destruct (_ && _) eqn:H; [|discriminate]. intros _.
  apply andb_true_iff in H. destruct H as [_ H]. apply Z.leb_le in H.
  apply Z.ltb_lt. lia.
Qed.

Lemma int_digits_ascii r :
  forall st acc z, Py.int_digits st acc r = Some z -> forallb Py.ascii_char r = true.
Proof.
  induction r as [|c r IH]; intros st acc z H; [reflexivity|].
  cbn [Py.int_digits forallb] in *.
  destruct (Py.digit_value c) as [d|] eqn:Hd.
  - rewrite (digit_value_ascii _ _ Hd). exact (IH _ _ _ H).
  - destruct (c =? "_")%char eqn:Hu; [|discriminate].
    apply Ascii.eqb_eq in Hu. subst c.
    destruct st; try discriminate. exact (IH _ _ _ H).
Qed.

Lemma int_literal_ascii r z : Py.int_literal r = Some z -> forallb Py.ascii_char r = true.
Proof.
  unfold Py.int_literal. destruct (_ <=? _); [|discriminate]. apply int_digits_ascii.
Qed.

Lemma lstrip_ascii l : forallb Py.ascii_char (Py.lstrip l) = true -> forallb Py.ascii_char l = true.
Proof.
  induction l as [|c l IH]; [reflexivity|]. cbn [Py.lstrip forallb].
  destruct (Py.is_space c) eqn:Hs; [|exact (fun H => H)].
  intros H. now rewrite (is_space_ascii _ Hs), IH.
Qed.

Lemma forallb_rev (l : list ascii) : forallb Py.ascii_char (rev l) = forallb Py.ascii_char l.
Proof.
  induction l as [|c l IH]; [reflexivity|].
  cbn [rev forallb]. rewrite forallb_app, IH. cbn [forallb].
  now rewrite andb_true_r, andb_comm.
Qed.

Lemma strip_ascii l : forallb Py.ascii_char (Py.strip l) = true -> forallb Py.ascii_char l = true.
Proof.
  unfold Py.strip. rewrite forallb_rev. intros H.
  apply lstrip_ascii in H. rewrite forallb_rev in H. now apply lstrip_ascii.
Qed.

(** A text that [int] reads as an integer has ASCII characters only:
    blanks, a sign, digits and underscores. *)
Lemma int_reads_ascii s z : Py.int s = Some z -> Py.is_ascii s = true.
Proof.
  unfold Py.int, Py.is_ascii. intros H. apply strip_ascii.
  destruct (Py.strip (list_ascii_of_string s)) as [|c r]; [reflexivity|].
  assert (Hc : (c = "-"%char \/ c = "+"%char) /\
               (exists z', Py.int_literal r = Some z') \/
               Py.int_literal (c :: r) = Some z).
  { destruct c as [[] [] [] [] [] [] [] []]; auto;
      left; (split; [auto|]);
      destruct (Py.int_literal r) as [z'|]; try discriminate; eauto. }
  destruct Hc as [[Hc [z' Hz]] | Hz].
  - cbn [forallb]. rewrite (int_literal_ascii _ _ Hz).
    destruct Hc as [-> | ->]; reflexivity.
  - exact (int_literal_ascii _ _ Hz).
Qed.



(* ===================================================================== *)
(** ** The example worlds *)
(* ===================================================================== *)

(** [int] as the interpreter has it, at the edges: the blanks it
    strips, the underscores, and the limit on the digits. *)
Lemma int_edges :
  Py.int " 9000 " = Some 9000 /\
  Py.int (String "009"%char (String "012"%char (String "013"%char "9000"))) = Some 9000 /\
  Py.int (String "031"%char "9000") = None /\
  Py.int "+9_000" = Some 9000 /\
  Py.int "9__000" = None /\
  Py.int "-0" = Some 0 /\
  Py.int "0x10" = None /\
  Py.int (string_of_list_ascii (repeat "0"%char 4300)) = Some 0 /\
  Py.int (string_of_list_ascii (repeat "0"%char 4301)) = None /\
  Py.int (string_of_list_ascii ("-"%char :: repeat "0"%char 4300)) = Some 0.
Proof. repeat apply conj; vm_compute; reflexivity. Qed.

Lemma scenario_bound : bound Example.scenario "10.0.0.5" 9000.
Proof.
  unfold bound. repeat split; try reflexivity.
  exists "9000". split; reflexivity.
Qed.

Lemma scenario_healthy : healthy Example.scenario "10.0.0.5".
Proof.
  unfold healthy. repeat split.
  - eexists. reflexivity.
  - intros i. exists Example.hello, Example.node, 5555. split; reflexivity.
Qed.

Lemma oversized_bound : bound Example.oversized "10.0.0.5" 9000.
Proof.
  unfold bound. repeat split; try reflexivity.
  exists "9000". split; reflexivity.
Qed.

Lemma unprivileged_bound : bound Example.unprivileged "10.0.0.5" 9000.
Proof.
  unfold bound. repeat split; try reflexivity.
  exists "9000". split; reflexivity.
Qed.

Lemma octal_bound : bound Example.octal "010.0.0.5" 9000.
Proof.
  unfold bound. repeat split; try reflexivity.
  exists "9000". split; reflexivity.
Qed.


(** The rounds that come back, as the run of the script. *)
Lemma run_comes_back w dest port i :
  bound w dest port ->
  (forall j, (j < i)%nat -> comes_back w dest port j) ->
  fst (run i w) = Running /\
  recvs (snd (run i w)) = i /\ sends (snd (run i w)) = i /\
  List.length (received (trace (snd (run i w)))) = i /\
  List.length (forwarded (trace (snd (run i w)))) = i.
Proof.
  intros Hb Hj.
  destruct (run_shape w dest port i Hb) as (evs & Hl & Ht).
  pose proof Hb as (_ & _ & (a2 & H2 & Hi) & _ & _).
  assert (Hr : fst (run i w) = Running).
  { unfold run. rewrite (main_bound _ _ _ _ Hb).
    apply (while_comes_back w dest port a2 H2 Hi); [reflexivity | exact Hj]. }
  split; [exact Hr|].
  rewrite Hr in Hl. destruct (loop_trace_running _ _ _ _ _ _ Hl) as (H1 & H3 & _).
  unfold run in Hr |- *. rewrite (main_bound _ _ _ _ Hb) in Hr |- *.
  destruct (while_counters w dest port a2 H2 Hi _ _ Hr) as [Hc1 Hc2].
  cbn [recvs sends] in Hc1, Hc2.
  unfold run in Ht. rewrite (main_bound _ _ _ _ Hb) in Ht.
  rewrite Ht. unfold banner. cbn [received forwarded]. auto.
Qed.

(** The run past the rounds that came back: one more round from where
    they left the process. *)
Lemma run_next_round w dest port i m :
  bound w dest port ->
  fst (run i w) = Running ->
  run (i + S m) w =
    match iteration dest w (snd (run i w)) with
    | (Done _, st) => while_1 m (iteration dest) w st
    | (Failed e, st) => (Failed e, st)
    | (Running, st) => (Running, st)
    end.
Proof.
  intros Hb Hr. pose proof Hb as (_ & _ & (a2 & H2 & Hi) & _ & _).
  unfold run in *. rewrite (main_bound _ _ _ _ Hb) in Hr.
  rewrite (main_bound w dest port (i + S m) Hb), (main_bound w dest port i Hb).
  rewrite (while_resume w dest port a2 H2 Hi i (S m) _ Hr).
  cbn [while_1]. unfold bind.
  destruct (iteration dest w _) as [[u|e|] st]; reflexivity.
Qed.

(* ===================================================================== *)
(** ** The properties of the relay *)
(* ===================================================================== *)

(** C1 (address rewriting).  In every run that gets past [bind], the
    packet forwarded for the i-th datagram received has the datagram's
    source address as its IP source, the address the first command-line
    argument stands for as its IP destination, the datagram's source
    port as its UDP source port, and the port read from the second
    command-line argument, the one handed to [bind], as its UDP
    destination port. *)
Theorem forwarded_packet_addressing w n dest port i data sip sp pkt :
  bound w dest port ->
  nth_error (received (trace (snd (run n w)))) i = Some (data, sip, sp) ->
  nth_error (forwarded (trace (snd (run n w)))) i = Some pkt ->
  inet_ntoa (ip_src pkt) = sip /\
  address_of (resolver w) dest = Some (ip_dst pkt) /\
  sport_of pkt = Some sp /\
  dport_of pkt = Some port.
Proof.
  intros Hb Hr Hf.
  destruct (run_shape w dest port n Hb) as (evs & Hl & Ht).
  rewrite Ht in Hr, Hf. unfold banner in Hr, Hf. cbn [received forwarded] in Hr, Hf.
  destruct (loop_trace_received _ _ _ _ _ _ _ Hl _ _ _ _ Hr) as (B & a & Hin & -> & ->).
  destruct (loop_trace_forwarded _ _ _ _ _ _ _ Hl _ _ Hf) as (B' & a' & p' & Hin' & Hp & _).
  rewrite Hin in Hin'. injection Hin' as <- <- <-.
  destruct (packet_for_fields _ _ _ _ _ _ _ Hp) as (H1 & H2 & H3 & H4 & _).
  rewrite H1. auto.
Qed.

Lemma forwarded_packet_addressing_scenario :
  inet_ntoa (ip_src Example.scenario_packet) = "192.168.1.20" /\
  address_of (resolver Example.scenario) "10.0.0.5" = Some (ip_dst Example.scenario_packet) /\
  sport_of Example.scenario_packet = Some 5555 /\
  dport_of Example.scenario_packet = Some 9000.
Proof.
  apply (forwarded_packet_addressing Example.scenario 1 "10.0.0.5" 9000 0
           Example.hello "192.168.1.20" 5555 Example.scenario_packet).
  - exact scenario_bound.
  - vm_compute. reflexivity.
  - vm_compute. reflexivity.
Defined.

(** C2 (payload fidelity).  In every run that gets past [bind], the
    packet forwarded for a datagram of at most 4096 bytes carries exactly
    the bytes of that datagram.  And the relay does not depend on what
    the payloads hold: in a world that differs only in the payloads of
    the datagrams that arrive, the run stands at the same point and the
    packets forwarded are addressed the same. *)
Theorem payload_fidelity w n dest port :
  bound w dest port ->
  (forall i B a p pkt,
     incoming w i = Datagram B a p ->
     blen B <= 4096 ->
     nth_error (forwarded (trace (snd (run n w)))) i = Some pkt ->
     payload_of pkt = Some B) /\
  (forall w',
     same_but_payloads w w' ->
     fst (run n w') = fst (run n w) /\
     map addressing (forwarded (trace (snd (run n w')))) =
       map addressing (forwarded (trace (snd (run n w))))).
Proof.
  intros Hb.
  destruct (run_shape w dest port n Hb) as (evs & Hl & Ht).
  split.
  - intros i B a p pkt Hin Hlen Hf.
    rewrite Ht in Hf. unfold banner in Hf. cbn [forwarded] in Hf.
    destruct (loop_trace_forwarded _ _ _ _ _ _ _ Hl _ _ Hf) as (B' & a' & p' & Hin' & Hp & _).
    cbn [Nat.add] in Hin'. rewrite Hin in Hin'. injection Hin' as <- <- <-.
    destruct (packet_for_fields _ _ _ _ _ _ _ Hp) as (_ & _ & _ & _ & H5).
    rewrite H5. now rewrite take_all.
  - intros w' Hsame.
    pose proof (bound_same_but_payloads _ _ _ _ Hsame Hb) as Hb'.
    destruct (run_shape w' dest port n Hb') as (evs' & Hl' & Ht').
    destruct Hsame as (_ & _ & _ & Ha & Hr & Hx & Hs & _ & Hi).
    destruct (loop_trace_blind w w' dest port Ha Hr Hx Hs Hi _ _ _ _ Hl _ _ Hl') as [Ho Hm].
    rewrite Ht, Ht'. unfold banner. cbn [forwarded]. split; congruence.
Qed.

Lemma payload_fidelity_scenario :
  payload_of Example.scenario_packet = Some Example.hello.
Proof.
  apply (proj1 (payload_fidelity Example.scenario 1 "10.0.0.5" 9000 scenario_bound)
           O Example.hello Example.node 5555 Example.scenario_packet).
  - reflexivity.
  - vm_compute. discriminate.
  - vm_compute. reflexivity.
Defined.

(** C3 (bind failure).  When the operating system refuses the bind, the
    process prints the one line [Bind failed.] and exits with status 1;
    it has called neither [recvfrom] nor [send]; and once it has exited
    standard output has received that line and nothing else, whether it
    is flushed at the call or on the way out. *)
Theorem bind_failure_exits_1 w port n :
  bind_refused w port ->
  trace (snd (run n w)) = [Stdout (Py.line "Bind failed.")] /\
  fst (run n w) = Failed (Py.SystemExit 1) /\
  exit_status (fst (run n w)) = Some 1 /\
  recvs (snd (run n w)) = O /\
  sends (snd (run n w)) = O /\
  at_exit w (trace (snd (run n w))) = Py.line "Bind failed.".
Proof.
  intros H. rewrite (run_refused w port n H). cbn [fst snd trace recvs sends exit_status].
  unfold bind_failed. rewrite at_exit_one_print. repeat split; reflexivity.
Qed.

Lemma bind_failure_exits_1_port_taken :
  trace (snd (run 5 Example.port_taken)) = [Stdout (Py.line "Bind failed.")] /\
  fst (run 5 Example.port_taken) = Failed (Py.SystemExit 1) /\
  exit_status (fst (run 5 Example.port_taken)) = Some 1 /\
  recvs (snd (run 5 Example.port_taken)) = O /\
  sends (snd (run 5 Example.port_taken)) = O /\
  at_exit Example.port_taken (trace (snd (run 5 Example.port_taken))) =
    String.append "Bind failed." (String Py.LF "").
Proof.
  apply (bind_failure_exits_1 Example.port_taken 9000 5).
  unfold bind_refused. repeat split; try reflexivity.
  - exists "10.0.0.5". reflexivity.
  - exists "9000". split; reflexivity.
Defined.

(** C4 (truncation).  In every run that gets past [bind], of a datagram
    longer than 4096 bytes [recvfrom] returns the first 4096 bytes, and
    the packet forwarded for it carries exactly those. *)
Theorem long_datagram_truncated w n dest port i B a p :
  bound w dest port ->
  incoming w i = Datagram B a p ->
  4096 < blen B ->
  (forall data sip sp,
     nth_error (received (trace (snd (run n w)))) i = Some (data, sip, sp) ->
     data = take 4096 B /\ blen data = 4096) /\
  (forall pkt,
     nth_error (forwarded (trace (snd (run n w)))) i = Some pkt ->
     payload_of pkt = Some (take 4096 B) /\ blen (take 4096 B) = 4096).
Proof.
  intros Hb Hin Hlen.
  destruct (run_shape w dest port n Hb) as (evs & Hl & Ht).
  rewrite Ht. unfold banner. cbn [received forwarded].
  assert (H4096 : blen (take 4096 B) = 4096) by (apply blen_take_long; lia).
  split.
  - intros data sip sp Hr.
    destruct (loop_trace_received _ _ _ _ _ _ _ Hl _ _ _ _ Hr) as (B' & a' & Hin' & -> & ->).
    cbn [Nat.add] in Hin'. rewrite Hin in Hin'. injection Hin' as <- <- <-. auto.
  - intros pkt Hf.
    destruct (loop_trace_forwarded _ _ _ _ _ _ _ Hl _ _ Hf) as (B' & a' & p' & Hin' & Hp & _).
    cbn [Nat.add] in Hin'. rewrite Hin in Hin'. injection Hin' as <- <- <-.
    destruct (packet_for_fields _ _ _ _ _ _ _ Hp) as (_ & _ & _ & _ & H5). auto.
Qed.

Lemma long_datagram_truncated_oversized :
  exists pkt,
    nth_error (forwarded (trace (snd (run 1 Example.oversized)))) 0 = Some pkt /\
    payload_of pkt = Some (repeat x41 (Z.to_nat 4096)) /\
    blen Example.long_payload = 5000.
Proof.
  destruct (nth_error (forwarded (trace (snd (run 1 Example.oversized)))) 0) as [pkt|] eqn:E;
    [|vm_compute in E; discriminate].
  exists pkt. split; [reflexivity|]. split; [|reflexivity].
  destruct (proj2 (long_datagram_truncated Example.oversized 1 "10.0.0.5" 9000 O
                     Example.long_payload Example.node 5555
                     oversized_bound eq_refl ltac:(vm_compute; reflexivity)) pkt E)
    as [H _].
  rewrite H. vm_compute. reflexivity.
Defined.

(** C5 (ordering).  In every run: the i-th packet forwarded is the one
    built from the i-th datagram received, so packets leave in the order
    the datagrams arrived; when a receive returns, every datagram
    received before it has been logged and has had its one call of
    [send], all of which went through (three writes to standard output
    for each: its log line and the two of [send]; and the banner); and
    when a packet is sent, exactly one datagram, the one it carries, has
    been received since the packet before it was sent. *)
Theorem forwarding_order w n :
  (forall i pkt,
     nth_error (forwarded (trace (snd (run n w)))) i = Some pkt ->
     exists data sip sp,
       nth_error (received (trace (snd (run n w)))) i = Some (data, sip, sp) /\
       payload_of pkt = Some data /\
       inet_ntoa (ip_src pkt) = sip /\
       sport_of pkt = Some sp) /\
  (forall before data sip sp after,
     trace (snd (run n w)) = before ++ Recvfrom data sip sp :: after ->
     List.length (forwarded before) = List.length (received before) /\
     send_calls before = List.length (received before) /\
     List.length (printed before) = S (3 * List.length (received before))) /\
  (forall before pkt after,
     trace (snd (run n w)) = before ++ Send pkt :: after ->
     List.length (received before) = S (List.length (forwarded before))).
Proof.
  destruct (run_trace w n) as [-> | [-> | (dest & port & evs & Hb & Hl & ->)]].
  - repeat split; intros; try (destruct i; discriminate);
      destruct before; discriminate.
  - repeat split; intros; try (destruct i; discriminate);
      destruct before as [|? [|? ?]]; discriminate.
  - unfold banner. cbn [received forwarded]. repeat apply conj.
    + intros i pkt Hf.
      destruct (loop_trace_forwarded _ _ _ _ _ _ _ Hl _ _ Hf) as (B & a & p & Hin & Hp & Hr).
      destruct (packet_for_fields _ _ _ _ _ _ _ Hp) as (H1 & _ & H3 & _ & H5).
      do 3 eexists. split; [exact Hr|]. rewrite H1. auto.
    + intros before data sip sp after E.
      destruct before as [|e0 before]; [discriminate|].
      injection E as <- E.
      destruct (loop_trace_at_recv _ _ _ _ _ _ _ Hl _ _ _ _ _ E) as (H1 & H2 & H3 & _).
      cbn [received forwarded printed send_calls List.length]. auto.
    + intros before pkt after E.
      destruct before as [|e0 before]; [discriminate|].
      injection E as <- E.
      destruct (loop_trace_at_send _ _ _ _ _ _ _ Hl _ _ _ E)
        as (earlier & data & sip & sp & -> & H1 & _).
      cbn [received forwarded]. rewrite received_app, forwarded_app.
      cbn [received forwarded]. rewrite app_nil_r, length_app. cbn [List.length]. lia.
Qed.

Lemma forwarding_order_scenario :
  List.length (received (banner :: Example.round ++ firstn 2 Example.round)) =
  S (List.length (forwarded (banner :: Example.round ++ firstn 2 Example.round))).
Proof.
  apply (proj2 (proj2 (forwarding_order Example.scenario 2))
           (banner :: Example.round ++ firstn 2 Example.round) Example.scenario_packet
           [OsWrite sent_dot; Stdout sent_count]).
  vm_compute. reflexivity.
Defined.




(** C7 (no recovery).  Past [bind] and after [i] rounds that
    came back to [recvfrom], let a datagram arrive.  If the construction
    of its packet raises, or if [send] raises, the run stops there
    however long the loop is watched: the exception is not caught, the
    exit status is 1, the datagram has been received once and logged, no
    packet has been handed to a socket for it, and nothing happens after
    the failure.  But a socket error that scapy's socket catches and
    logs does not reach the script: the round comes back to [recvfrom],
    and the packet that did not leave is not sent again. *)
Theorem forward_error_is_fatal w dest port i B a p n :
  bound w dest port ->
  (forall j, (j < i)%nat -> comes_back w dest port j) ->
  incoming w i = Datagram B a p ->
  (i < n)%nat ->
  fst (run i w) = Running /\
  (forall e,
     packet_for w dest port (take 4096 B) (inet_ntoa a) p = Py.Raise e ->
     run n w =
       (Failed e,
        {| trace := trace (snd (run i w)) ++
                      [Recvfrom (take 4096 B) (inet_ntoa a) p;
                       Stdout (log_line (take 4096 B) (inet_ntoa a) p)];
           recvs := S i; sends := i |}) /\
     uncaught (fst (run n w)) = Some e /\
     exit_status (fst (run n w)) = Some 1 /\
     List.length (received (trace (snd (run n w)))) = S i /\
     List.length (forwarded (trace (snd (run n w)))) = i /\
     send_calls (trace (snd (run n w))) = i) /\
  (forall pkt,
     packet_for w dest port (take 4096 B) (inet_ntoa a) p = Py.Ok pkt ->
     sending w i = Refused ->
     run n w =
       (Failed Py.OSError,
        {| trace := trace (snd (run i w)) ++
                      [Recvfrom (take 4096 B) (inet_ntoa a) p;
                       Stdout (log_line (take 4096 B) (inet_ntoa a) p);
                       SendFailed pkt];
           recvs := S i; sends := S i |}) /\
     uncaught (fst (run n w)) = Some Py.OSError /\
     exit_status (fst (run n w)) = Some 1 /\
     List.length (received (trace (snd (run n w)))) = S i /\
     List.length (forwarded (trace (snd (run n w)))) = i /\
     send_calls (trace (snd (run n w))) = S i) /\
  (forall pkt,
     packet_for w dest port (take 4096 B) (inet_ntoa a) p = Py.Ok pkt ->
     sending w i = Swallowed ->
     run (S i) w =
       (Running,
        {| trace := trace (snd (run i w)) ++
                      [Recvfrom (take 4096 B) (inet_ntoa a) p;
                       Stdout (log_line (take 4096 B) (inet_ntoa a) p);
                       Send pkt; SendErrorLogged; OsWrite sent_dot; Stdout sent_count];
           recvs := S i; sends := S i |}) /\
     transmitted (trace (snd (run (S i) w))) = transmitted (trace (snd (run i w))) /\
     send_calls (trace (snd (run (S i) w))) = S i).
Proof.
  intros Hb Hj Hin Hlt.
  destruct (run_comes_back w dest port i Hb Hj) as (Hr & Hc1 & Hc2 & Hn1 & Hn2).
  pose proof Hb as (_ & _ & (a2 & H2 & Hi) & _ & _).
  assert (Hsc : send_calls (trace (snd (run i w))) = i).
  { destruct (run_shape w dest port i Hb) as (evs & Hl & Ht).
    rewrite Hr in Hl. destruct (loop_trace_running _ _ _ _ _ _ Hl) as (_ & _ & H3).
    rewrite Ht. unfold banner. cbn [send_calls]. exact H3. }
  pose proof (iteration_run w (snd (run i w)) dest a2 port H2 Hi) as Hit.
  rewrite Hc1, Hc2, Hin in Hit. cbv zeta in Hit.
  assert (Hn : n = (i + S (n - S i))%nat) by lia.
  split; [exact Hr|]. repeat apply conj.
  - intros e Hp. rewrite Hp in Hit.
    assert (E : run n w =
                (Failed e,
                 {| trace := trace (snd (run i w)) ++
                      [Recvfrom (take 4096 B) (inet_ntoa a) p;
                       Stdout (log_line (take 4096 B) (inet_ntoa a) p)];
                    recvs := S i; sends := i |})).
    { rewrite Hn, (run_next_round w dest port i _ Hb Hr), Hit. reflexivity. }
    rewrite E. cbn [fst snd trace].
    rewrite received_app, forwarded_app, send_calls_app, !length_app, Hn1, Hn2, Hsc.
    cbn [received forwarded send_calls List.length].
    pose proof (packet_for_raises _ _ _ _ _ _ _ (blen_take 4096 B ltac:(lia)) Hp) as Hu.
    repeat split; try lia; [exact Hu | destruct e; try discriminate; reflexivity].
  - intros pkt Hp Hs. rewrite Hp, Hs in Hit.
    assert (E : run n w =
                (Failed Py.OSError,
                 {| trace := trace (snd (run i w)) ++
                      [Recvfrom (take 4096 B) (inet_ntoa a) p;
                       Stdout (log_line (take 4096 B) (inet_ntoa a) p);
                       SendFailed pkt];
                    recvs := S i; sends := S i |})).
    { rewrite Hn, (run_next_round w dest port i _ Hb Hr), Hit.
      rewrite <- app_assoc. reflexivity. }
    rewrite E. cbn [fst snd trace].
    rewrite received_app, forwarded_app, send_calls_app, !length_app, Hn1, Hn2, Hsc.
    cbn [received forwarded send_calls List.length uncaught exit_status].
    repeat split; lia.
  - intros pkt Hp Hs. rewrite Hp, Hs in Hit.
    assert (E : run (S i) w =
                (Running,
                 {| trace := trace (snd (run i w)) ++
                      [Recvfrom (take 4096 B) (inet_ntoa a) p;
                       Stdout (log_line (take 4096 B) (inet_ntoa a) p);
                       Send pkt; SendErrorLogged; OsWrite sent_dot; Stdout sent_count];
                    recvs := S i; sends := S i |})).
    { replace (S i) with (i + 1)%nat at 1 by lia.
      rewrite (run_next_round w dest port i _ Hb Hr), Hit.
      cbn [while_1]. rewrite <- app_assoc. reflexivity. }
    rewrite E. cbn [fst snd trace].
    rewrite transmitted_app_recv, send_calls_app, Hsc.
    cbn [transmitted send_calls]. rewrite app_nil_r.
    repeat split; lia.
Qed.

Lemma forward_error_is_fatal_unprivileged :
  (run 3 Example.unprivileged =
     (Failed Py.OSError,
      {| trace := trace (snd (run 0 Example.unprivileged)) ++
                    [Recvfrom (take 4096 Example.hello) (inet_ntoa Example.node) 5555;
                     Stdout (log_line (take 4096 Example.hello) (inet_ntoa Example.node) 5555);
                     SendFailed Example.scenario_packet];
         recvs := 1; sends := 1 |}) /\
   uncaught (fst (run 3 Example.unprivileged)) = Some Py.OSError /\
   exit_status (fst (run 3 Example.unprivileged)) = Some 1 /\
   List.length (received (trace (snd (run 3 Example.unprivileged)))) = 1%nat /\
   List.length (forwarded (trace (snd (run 3 Example.unprivileged)))) = 0%nat /\
   send_calls (trace (snd (run 3 Example.unprivileged))) = 1%nat) /\
  (run 3 Example.octal =
     (Failed Py.OSError,
      {| trace := trace (snd (run 0 Example.octal)) ++
                    [Recvfrom (take 4096 Example.hello) (inet_ntoa Example.node) 5555;
                     Stdout (log_line (take 4096 Example.hello) (inet_ntoa Example.node) 5555)];
         recvs := 1; sends := 0 |}) /\
   uncaught (fst (run 3 Example.octal)) = Some Py.OSError /\
   exit_status (fst (run 3 Example.octal)) = Some 1 /\
   List.length (received (trace (snd (run 3 Example.octal)))) = 1%nat /\
   List.length (forwarded (trace (snd (run 3 Example.octal)))) = 0%nat /\
   send_calls (trace (snd (run 3 Example.octal))) = 0%nat).
Proof.
  split.
  - apply (proj1 (proj2 (proj2 (forward_error_is_fatal Example.unprivileged "10.0.0.5" 9000 0
                                  Example.hello Example.node 5555 3 unprivileged_bound
                                  ltac:(intros j Hj; lia) eq_refl ltac:(lia))))
             Example.scenario_packet).
    + vm_compute. reflexivity.
    + reflexivity.
  - apply (proj1 (proj2 (forward_error_is_fatal Example.octal "010.0.0.5" 9000 0
                           Example.hello Example.node 5555 3 octal_bound
                           ltac:(intros j Hj; lia) eq_refl ltac:(lia)))
             Py.OSError).
    vm_compute. reflexivity.
Defined.

(** C7 does not hold as the specification words it, of every error
    during transmission: the first packet meets a socket error, no route
    to its destination, that scapy's socket logs and does not raise; the
    process does not terminate, the datagram is lost, and the loop
    receives and forwards the next one. *)
Lemma transmission_error_is_swallowed :
  sending Example.unreachable 0 = Swallowed /\
  run 2 Example.unreachable =
    (Running,
     {| trace := banner :: Example.round_lost ++ Example.round; recvs := 2; sends := 2 |}) /\
  transmitted (banner :: Example.round_lost ++ Example.round) = [Example.scenario_packet] /\
  List.length (received (banner :: Example.round_lost ++ Example.round)) = 2%nat /\
  send_calls (banner :: Example.round_lost ++ Example.round) = 2%nat.
Proof. repeat apply conj; vm_compute; reflexivity. Qed.

(** C8 (no termination).  No run of the script, in any world, ends with
    exit status 0.  And past [bind], when nothing fails in the loop, the
    loop is still running however many iterations it is given: after [n]
    of them it has received [n] datagrams and forwarded [n] packets, all
    of which have left, and it has no exit status. *)
Theorem loop_runs_forever :
  (forall w n, exit_status (fst (run n w)) <> Some 0) /\
  (forall w dest port n,
     bound w dest port ->
     healthy w dest ->
     fst (run n w) = Running /\
     exit_status (fst (run n w)) = None /\
     List.length (received (trace (snd (run n w)))) = n /\
     List.length (forwarded (trace (snd (run n w)))) = n /\
     transmitted (trace (snd (run n w))) = forwarded (trace (snd (run n w)))).
Proof.
  split; [exact run_never_exits_0|].
  intros w dest port n Hb Hh.
  destruct (run_shape w dest port n Hb) as (evs & Hl & Ht).
  pose proof Hb as (_ & _ & _ & Hport & _).
  destruct (loop_trace_healthy _ _ _ _ _ _ _ Hport Hh Hl) as [Ho Htr].
  rewrite Ho in *. destruct (loop_trace_running _ _ _ _ _ _ Hl) as (Hr & Hf & _).
  rewrite Ht. unfold banner. cbn [received forwarded transmitted exit_status]. auto.
Qed.

Lemma loop_runs_forever_scenario :
  fst (run 7 Example.scenario) = Running /\
  exit_status (fst (run 7 Example.scenario)) = None /\
  List.length (received (trace (snd (run 7 Example.scenario)))) = 7%nat /\
  List.length (forwarded (trace (snd (run 7 Example.scenario)))) = 7%nat /\
  transmitted (trace (snd (run 7 Example.scenario))) =
    forwarded (trace (snd (run 7 Example.scenario))).
Proof.
  apply (proj2 loop_runs_forever Example.scenario "10.0.0.5" 9000 7%nat).
  - exact scenario_bound.
  - exact scenario_healthy.
Defined.






(* ===================================================================== *)
(** ** Further properties of the script *)
(* ===================================================================== *)

Lemma port_taken_refused : bind_refused Example.port_taken 9000.
Proof.
  unfold bind_refused. repeat split; try reflexivity.
  - exists "10.0.0.5". reflexivity.
  - exists "9000". split; reflexivity.
Qed.

Lemma receive_breaks_bound : bound Example.receive_breaks "10.0.0.5" 9000.
Proof.
  unfold bound. repeat split; try reflexivity.
  exists "9000". split; reflexivity.
Qed.

Lemma loop_trace_no_bind_failed w dest port i n o evs :
  loop_trace w dest port i n o evs -> ~ In bind_failed evs.
Proof.
  intros Hl Hin. apply in_split in Hin. destruct Hin as (before & after & E).
  destruct (loop_trace_at_stdout _ _ _ _ _ _ _ Hl _ _ _ E)
    as [H | (earlier & data & sip & sp & _ & H)]; [discriminate|].
  destruct (log_line_head data sip sp) as [r Hr]. rewrite Hr in H. discriminate.
Qed.

Lemma loop_trace_counts w dest port i n o evs :
  loop_trace w dest port i n o evs ->
  (List.length (forwarded evs) <= List.length (received evs) <= S (List.length (forwarded evs)))%nat /\
  (send_calls evs <= List.length (received evs))%nat /\
  (List.length (forwarded evs) <= send_calls evs)%nat.
Proof.
  by_rounds; cbn [forwarded received send_calls List.length]; lia.
Qed.



(** X1 (port out of range).  When the second argument is read as an
    integer that is no port, below 0 or above 65535, [bind] raises
    [OverflowError] before the operating system is asked: the exception
    is no [socket.error], so the handler of the failed bind does not
    run; nothing is printed and the process ends with status 1. *)
Theorem port_out_of_range_is_uncaught w n dest a2 port :
  nth_error (argv w) 1 = Some dest ->
  socket_ok w = true ->
  nth_error (argv w) 2 = Some a2 ->
  Py.int a2 = Some port ->
  (port < 0 \/ 65535 < port) ->
  run n w = (Failed Py.OverflowError, initial) /\
  Py.is_socket_error Py.OverflowError = false /\
  uncaught (fst (run n w)) = Some Py.OverflowError /\
  exit_status (fst (run n w)) = Some 1 /\
  printed (trace (snd (run n w))) = [] /\
  at_exit w (trace (snd (run n w))) = "".
Proof.
  intros H1 Hs H2 Hi Hr.
  assert (Hf : fits16 port = false).
  { destruct (fits16 port) eqn:E; [|reflexivity]. apply fits16_iff in E. lia. }
  unfold run. rewrite main_start, H1, Hs, H2, Hi, Hf. repeat split.
Qed.

Lemma port_out_of_range_is_uncaught_70000 :
  run 4 Example.port_too_large = (Failed Py.OverflowError, initial) /\
  Py.is_socket_error Py.OverflowError = false /\
  uncaught (fst (run 4 Example.port_too_large)) = Some Py.OverflowError /\
  exit_status (fst (run 4 Example.port_too_large)) = Some 1 /\
  printed (trace (snd (run 4 Example.port_too_large))) = [] /\
  at_exit Example.port_too_large (trace (snd (run 4 Example.port_too_large))) = "".
Proof.
  apply (port_out_of_range_is_uncaught Example.port_too_large 4 "10.0.0.5" "70000" 70000).
  - reflexivity.
  - reflexivity.
  - reflexivity.
  - reflexivity.
  - right. lia.
Defined.

(** X2 (no socket).  When the socket cannot be created, the [OSError]
    is raised outside the [try] statement, although it is a
    [socket.error]: it is not caught, [Bind failed.] is not printed, and
    the second argument has not been looked at. *)
Theorem socket_failure_is_uncaught w n dest :
  nth_error (argv w) 1 = Some dest ->
  socket_ok w = false ->
  run n w = (Failed Py.OSError, initial) /\
  Py.is_socket_error Py.OSError = true /\
  uncaught (fst (run n w)) = Some Py.OSError /\
  exit_status (fst (run n w)) = Some 1 /\
  ~ In bind_failed (trace (snd (run n w))).
Proof.
  intros H1 Hs. unfold run. rewrite main_start, H1, Hs. repeat split. intros [].
Qed.

Lemma socket_failure_is_uncaught_no_socket :
  run 4 Example.no_socket = (Failed Py.OSError, initial) /\
  Py.is_socket_error Py.OSError = true /\
  uncaught (fst (run 4 Example.no_socket)) = Some Py.OSError /\
  exit_status (fst (run 4 Example.no_socket)) = Some 1 /\
  ~ In bind_failed (trace (snd (run 4 Example.no_socket))).
Proof.
  apply (socket_failure_is_uncaught Example.no_socket 4 "10.0.0.5"); reflexivity.
Defined.

(** X3 (the failure line).  With a second argument of ASCII text,
    [Bind failed.] is printed in the runs in which the operating system
    refuses the bind, and in no other: not
    when an argument is missing or unreadable, not when the port is out
    of range, and not in the loop, whatever fails there. *)
Theorem bind_failed_only_when_refused w n :
  modelled w ->
  (In (Stdout (Py.line "Bind failed.")) (trace (snd (run n w))) <->
   exists port, bind_refused w port).
Proof.
  intros _. split.
  - intros Hin. unfold run in Hin. rewrite main_start in Hin. unfold bind_refused.
    destruct (nth_error (argv w) 1) as [dest|] eqn:H1; [|destruct Hin].
    destruct (socket_ok w) eqn:Hs; [|destruct Hin].
    destruct (nth_error (argv w) 2) as [a2|] eqn:H2; [|destruct Hin].
    destruct (Py.int a2) as [port|] eqn:Hi; [|destruct Hin].
    destruct (fits16 port) eqn:Hf; [|destruct Hin].
    destruct (bind_ok w port) eqn:Hb; [|eauto 10].
    exfalso.
    destruct (while_shape w dest port a2 H2 Hi n
                {| trace := [banner]; recvs := 0; sends := 0 |} eq_refl) as (evs & Hl & Ht).
    rewrite Ht in Hin. cbn [trace app In] in Hin. destruct Hin as [Hin | Hin].
    + discriminate.
    + exact (loop_trace_no_bind_failed _ _ _ _ _ _ _ Hl Hin).
  - intros (port & H). rewrite (run_refused w port n H). left. reflexivity.
Qed.

Lemma bind_failed_only_when_refused_port_taken :
  In (Stdout (Py.line "Bind failed.")) (trace (snd (run 2 Example.port_taken))).
Proof.
  apply (proj2 (bind_failed_only_when_refused Example.port_taken 2
                  ltac:(intros a2 H; injection H as <-; reflexivity))).
  exists 9000. exact port_taken_refused.
Defined.

(** X4 (receive failure).  Past [bind] and after [i] rounds that came
    back to [recvfrom], a call of [recvfrom] that fails ends the run
    however long the loop is watched: the [OSError] is not caught, the
    exit status is 1, and every datagram received before has been
    handed to [send]. *)
Theorem receive_error_is_fatal w dest port i n :
  bound w dest port ->
  (forall j, (j < i)%nat -> comes_back w dest port j) ->
  incoming w i = RecvFails ->
  (i < n)%nat ->
  run n w = (Failed Py.OSError,
             {| trace := trace (snd (run i w)) ++ [RecvfromFailed];
                recvs := S i; sends := i |}) /\
  uncaught (fst (run n w)) = Some Py.OSError /\
  exit_status (fst (run n w)) = Some 1 /\
  List.length (received (trace (snd (run n w)))) = i /\
  List.length (forwarded (trace (snd (run n w)))) = i.
Proof.
  intros Hb Hj Hin Hlt.
  destruct (run_comes_back w dest port i Hb Hj) as (Hr & Hc1 & Hc2 & Hn1 & Hn2).
  pose proof Hb as (_ & _ & (a2 & H2 & Hi) & _ & _).
  pose proof (iteration_run w (snd (run i w)) dest a2 port H2 Hi) as Hit.
  rewrite Hc1, Hc2, Hin in Hit.
  assert (E : run n w =
              (Failed Py.OSError,
               {| trace := trace (snd (run i w)) ++ [RecvfromFailed];
                  recvs := S i; sends := i |})).
  { replace n with (i + S (n - S i))%nat by lia.
    rewrite (run_next_round w dest port i _ Hb Hr), Hit. reflexivity. }
  rewrite E. cbn [fst snd trace uncaught exit_status].
  rewrite received_app, forwarded_app, !length_app, Hn1, Hn2.
  cbn [received forwarded List.length]. repeat split; lia.
Qed.

Lemma receive_error_is_fatal_receive_breaks :
  run 6 Example.receive_breaks =
    (Failed Py.OSError,
     {| trace := trace (snd (run 1 Example.receive_breaks)) ++ [RecvfromFailed];
        recvs := 2; sends := 1 |}) /\
  uncaught (fst (run 6 Example.receive_breaks)) = Some Py.OSError /\
  exit_status (fst (run 6 Example.receive_breaks)) = Some 1 /\
  List.length (received (trace (snd (run 6 Example.receive_breaks)))) = 1%nat /\
  List.length (forwarded (trace (snd (run 6 Example.receive_breaks)))) = 1%nat.
Proof.
  apply (receive_error_is_fatal Example.receive_breaks "10.0.0.5" 9000 1 6).
  - exact receive_breaks_bound.
  - intros j Hj. assert (j = O) by lia. subst j.
    exists Example.hello, Example.node, 5555, Example.scenario_packet.
    split; [reflexivity|]. split; [vm_compute; reflexivity | discriminate].
  - reflexivity.
  - lia.
Defined.

(** X5 (exit status).  A run of the script is still in its loop, or it
    has ended with an exception and the exit status 1: the script has no
    other way out. *)
Theorem exit_status_is_1 w n :
  (fst (run n w) = Running /\ exit_status (fst (run n w)) = None) \/
  ((exists e, fst (run n w) = Failed e) /\ exit_status (fst (run n w)) = Some 1).
Proof.
  destruct (run_cases w n) as [(dest & port & Hb) | [(e & -> & He) | ->]].
  - destruct (run_shape w dest port n Hb) as (evs & Hl & _).
    destruct (loop_trace_never_done _ _ _ _ _ _ _ Hl) as [E | [e E]]; rewrite E in *.
    + left. auto.
    + right. split; [eexists; reflexivity|].
      pose proof (loop_trace_failure _ _ _ _ _ _ _ Hl) as He.
      destruct e; try reflexivity. discriminate He.
  - right. split; [eexists; reflexivity|]. cbn [fst].
    destruct e; try reflexivity. cbn [uncaught] in He. discriminate He.
  - right. split; [eexists; reflexivity | reflexivity].
Qed.

(* ---------------------------------------------------------------------- *)
(** *** The checksums of a built packet *)

Lemma fold16_arith (s : Z) :
  fold16 s = s / 65536 + s mod 65536 + (s / 65536 + s mod 65536) / 65536.
Proof.
  unfold fold16. cbv zeta.
  change 65535 with (Z.ones 16). rewrite Z.land_ones by lia.
  rewrite !Z.shiftr_div_pow2 by lia. reflexivity.
Qed.

Lemma complement_arith (x : Z) : Z.land (Z.lnot x) 65535 = (- x - 1) mod 65536.
Proof.
  change 65535 with (Z.ones 16). rewrite Z.land_ones by lia. reflexivity.
Qed.

Lemma checksum_fold (bs : list byte) :
  checksum bs = Z.land (Z.lnot (fold16 (sum16 bs))) 65535.
Proof. reflexivity. Qed.

(** A sum to which its own checksum is added checks to zero; so does a
    sum whose checksum is zero and to which 0xFFFF is added instead. *)
Lemma sum_with_checksum (s : Z) :
  0 <= s < 2147483648 ->
  Z.land (Z.lnot (fold16 (s + Z.land (Z.lnot (fold16 s)) 65535))) 65535 = 0 /\
  (Z.land (Z.lnot (fold16 s)) 65535 = 0 ->
   Z.land (Z.lnot (fold16 (s + 65535))) 65535 = 0).
Proof.
  intros Hs. rewrite !complement_arith, !fold16_arith.
  split; [|intros H0]; Z.to_euclidean_division_equations; lia.
Qed.

Lemma byte_val_range (b : byte) : 0 <= byte_val b <= 255.
Proof. unfold byte_val. pose proof (Byte.to_N_bounded b). lia. Qed.

Lemma word_range (hi lo : byte) : 0 <= word hi lo <= 65535.
Proof.
  unfold word. pose proof (byte_val_range hi). pose proof (byte_val_range lo). lia.
Qed.

Lemma sum16_bound (bs : list byte) :
  0 <= sum16 bs /\ 2 * sum16 bs <= 65535 * (blen bs + 1).
Proof.
  assert (H : (0 <= sum16 bs /\ 2 * sum16 bs <= 65535 * (blen bs + 1)) /\
              forall b, 0 <= sum16 (b :: bs) /\
                        2 * sum16 (b :: bs) <= 65535 * (blen (b :: bs) + 1)).
  { induction bs as [|c bs [IH1 IH2]].
    - split; [cbn; lia|]. intros b. cbn [sum16]. unfold blen. cbn [List.length].
      pose proof (word_range b x00). lia.
    - split; [apply IH2|]. intros b. cbn [sum16].
      pose proof (word_range b c). unfold blen in *. cbn [List.length] in *. lia. }
  apply H.
Qed.

Lemma word_zero : word (byte_of_Z (0 / 256)) (byte_of_Z 0) = 0.
Proof. reflexivity. Qed.

Lemma sum16_ip_header (len ck : Z) (s d : ipv4) :
  fits16 ck = true ->
  sum16 (ip_header len ck s d) = sum16 (ip_header len 0 s d) + ck.
Proof.
  intros Hck. unfold ip_header, be16, octets. cbn [app sum16].
  rewrite (word_be16 ck Hck), word_zero. lia.
Qed.

Lemma sum16_udp (s d : ipv4) (sp dp ulen ck : Z) (data : list byte) :
  fits16 ck = true ->
  sum16 (octets s ++ octets d ++ be16 17 ++ be16 ulen ++ udp_header sp dp ulen ck ++ data) =
  sum16 (octets s ++ octets d ++ be16 17 ++ be16 ulen ++ udp_header sp dp ulen 0 ++ data) + ck.
Proof.
  intros Hck. unfold udp_header, be16, octets. cbn [app sum16].
  rewrite (word_be16 ck Hck), word_zero. lia.
Qed.

(** X6 (IP header checksum).  The header [raw] builds carries the
    checksum a receiver expects: the Internet checksum over the twenty
    bytes of the header, its checksum field included, is zero. *)
Theorem ip_header_checks (len : Z) (s d : ipv4) :
  checksum (ip_header len (ip_checksum len s d) s d) = 0.
Proof.
  assert (Hz : 0 <= sum16 (ip_header len 0 s d) < 2147483648).
  { pose proof (sum16_bound (ip_header len 0 s d)) as [H0 H1].
    change (blen (ip_header len 0 s d)) with 20 in H1. lia. }
  rewrite checksum_fold, sum16_ip_header by apply fits16_checksum.
  unfold ip_checksum. rewrite checksum_fold.
  exact (proj1 (sum_with_checksum _ Hz)).
Qed.

(** X7 (UDP checksum).  The UDP segment [raw] builds carries the
    checksum a receiver expects: the Internet checksum over the
    pseudo-header and the segment, its checksum field included, is zero,
    also when the checksum computed was zero and 0xFFFF was put in its
    place. *)
Theorem udp_segment_checks (s d : ipv4) (sp dp : Z) (data : list byte) :
  blen data <= 65507 ->
  checksum (pseudo_header s d (build_udp s d sp dp data) ++ build_udp s d sp dp data) = 0.
Proof.
  intros Hlen. unfold pseudo_header. rewrite blen_udp. unfold build_udp.
  set (zero := octets s ++ octets d ++ be16 17 ++ be16 (8 + blen data)
                 ++ udp_header sp dp (8 + blen data) 0 ++ data).
  assert (Hz : 0 <= sum16 zero < 2147483648).
  { pose proof (sum16_bound zero) as [H0 H1].
    assert (blen zero = 20 + blen data).
    { unfold zero, udp_header, be16, octets, blen. rewrite !length_app.
      cbn [List.length]. lia. }
    pose proof (blen_nonneg data). lia. }
  rewrite checksum_fold, <- !app_assoc.
  rewrite sum16_udp by apply fits16_udp_checksum.
  fold zero. unfold udp_checksum. cbv zeta.
  change (checksum ((octets s ++ octets d ++ be16 17 ++ be16 (8 + blen data))
                    ++ udp_header sp dp (8 + blen data) 0 ++ data))
    with (checksum zero).
  rewrite checksum_fold.
  destruct (sum_with_checksum (sum16 zero) Hz) as [H1 H2].
  destruct (Z.land (Z.lnot (fold16 (sum16 zero))) 65535 =? 0) eqn:E.
  - apply H2. now apply Z.eqb_eq.
  - exact H1.
Qed.

Lemma udp_segment_checks_scenario :
  checksum (pseudo_header Example.node (Addr x0a x00 x00 x05)
              (build_udp Example.node (Addr x0a x00 x00 x05) 5555 9000 Example.hello)
            ++ build_udp Example.node (Addr x0a x00 x00 x05) 5555 9000 Example.hello) = 0.
Proof.
  apply (udp_segment_checks Example.node (Addr x0a x00 x00 x05) 5555 9000 Example.hello).
  vm_compute. discriminate.
Defined.

(** X8 (the packet, field by field).  For a datagram of at most 4096
    bytes from a sender whose port is a port, when the destination makes
    an address field, lines 21 and 22 give the packet handed to [send]:
    version 4, a header of five words with no options, type of service
    0, identification 1, no flags, no fragment offset, time to live 64,
    protocol 17, the total length and the UDP length that the payload
    makes, the two checksums computed, the addresses and the ports as
    given, and the payload. *)
Theorem built_packet_fields w dest port data a p d :
  destination w dest = Py.Ok d ->
  fits16 port = true -> fits16 p = true -> blen data <= 4096 ->
  packet_for w dest port data (inet_ntoa a) p =
    Py.Ok {| ip_version := 4; ip_ihl := 5; ip_tos := 0;
             ip_len := 28 + blen data; ip_id := 1;
             ip_flags := 0; ip_frag := 0; ip_ttl := 64; ip_proto := 17;
             ip_chksum := ip_checksum (28 + blen data) a d;
             ip_src := a; ip_dst := d; ip_options := [];
             ip_payload :=
               AsUDP {| udp_sport := p; udp_dport := port;
                        udp_len := 8 + blen data;
                        udp_chksum := udp_checksum a d p port data;
                        udp_load := data |} |}.
Proof.
  intros Hd Hport Hp Hlen.
  assert (Hl : fits16 (28 + blen data) = true)
    by (pose proof (blen_nonneg data); fits).
  unfold destination in Hd.
  unfold packet_for, Scapy.raw. cbn [dst src sport dport load].
  rewrite field_address_inet_ntoa, Hd, Hp, Hport, Hl. cbn [andb]. unfold IP_of_bytes.
  rewrite dissect_build_ip
    by (rewrite blen_udp; now replace (20 + (8 + blen data)) with (28 + blen data) by lia).
  rewrite dissect_build_udp by assumption.
  rewrite blen_udp. replace (20 + (8 + blen data)) with (28 + blen data) by lia.
  reflexivity.
Qed.

Lemma built_packet_fields_scenario :
  packet_for Example.scenario "10.0.0.5" 9000 Example.hello (inet_ntoa Example.node) 5555 =
    Py.Ok {| ip_version := 4; ip_ihl := 5; ip_tos := 0;
             ip_len := 28 + blen Example.hello; ip_id := 1;
             ip_flags := 0; ip_frag := 0; ip_ttl := 64; ip_proto := 17;
             ip_chksum := ip_checksum (28 + blen Example.hello) Example.node
                            (Addr x0a x00 x00 x05);
             ip_src := Example.node; ip_dst := Addr x0a x00 x00 x05; ip_options := [];
             ip_payload :=
               AsUDP {| udp_sport := 5555; udp_dport := 9000;
                        udp_len := 8 + blen Example.hello;
                        udp_chksum := udp_checksum Example.node (Addr x0a x00 x00 x05)
                                        5555 9000 Example.hello;
                        udp_load := Example.hello |} |}.
Proof.
  apply (built_packet_fields Example.scenario "10.0.0.5" 9000 Example.hello Example.node 5555
           (Addr x0a x00 x00 x05)).
  - reflexivity.
  - reflexivity.
  - reflexivity.
  - vm_compute. discriminate.
Defined.

(** X9 (one send for one receive).  In every run the relay has handed
    to [send] as many packets as it has received datagrams, or one
    fewer, the datagram it is working on: no datagram is sent twice,
    none is skipped while the loop runs, and [send] is called at most
    once for each datagram received. *)
Theorem one_send_for_one_receive w n :
  (List.length (forwarded (trace (snd (run n w)))) <=
   List.length (received (trace (snd (run n w)))) <=
   S (List.length (forwarded (trace (snd (run n w))))))%nat /\
  (send_calls (trace (snd (run n w))) <=
   List.length (received (trace (snd (run n w)))))%nat /\
  (List.length (forwarded (trace (snd (run n w)))) <=
   send_calls (trace (snd (run n w))))%nat.
Proof.
  destruct (run_trace w n) as [-> | [-> | (dest & port & evs & Hb & Hl & ->)]].
  - cbn. lia.
  - cbn. lia.
  - unfold banner. cbn [forwarded received send_calls].
    exact (loop_trace_counts _ _ _ _ _ _ _ Hl).
Qed.

